(** * NeuroLinker: the AI context projector and the reflection call

    A shallow embedding of the parts of [main.py] and
    [reflection_gemini.py] that build text for the external AI services
    and that interpret what comes back:

    - [_get_decisions_summary] and [_get_constraints_summary] (main.py),
    - the context set by [render_ai_insights] (main.py),
    - the text block and the failure check of [render_decision_detail]
      (main.py),
    - [GeminiReflectionAI.__init__] and [GeminiReflectionAI.reflect]
      (reflection_gemini.py).

    Python [str] values are modelled as [string]; one [ascii] stands for
    one character, so slicing and [len] count characters as Python does
    on ASCII text. *)

From Stdlib Require Import String Ascii List Arith Bool Lia.
From Stdlib Require Import Sorting.Sorted Sorting.Permutation.
From Stdlib Require Import Decimal DecimalString.
Import ListNotations.

Local Open Scope list_scope.
Local Open Scope string_scope.

(** ** Python string primitives *)

Module PyStr.

(** The newline character of the source's ["\n"]. *)
Definition nl : string := String (ascii_of_nat 10) EmptyString.

(** [s[:n]]: the first [n] characters, the whole string when shorter. *)
Fixpoint slice_to (n : nat) (s : string) : string :=
  match n, s with
  | O, _ => EmptyString
  | S _, EmptyString => EmptyString
  | S n', String c s' => String c (slice_to n' s')
  end.

(** [sep.join(parts)]. *)
Fixpoint join (sep : string) (parts : list string) : string :=
  match parts with
  | [] => EmptyString
  | [p] => p
  | p :: rest => p ++ sep ++ join sep rest
  end.

(** [str(n)] for a non-negative [int]. *)
Definition str_of_nat (n : nat) : string :=
  NilEmpty.string_of_uint (Nat.to_uint n).

(** [c.lower()] on one ASCII character: ['A'..'Z'] go to ['a'..'z']. *)
Definition lower_ascii (c : ascii) : ascii :=
  let n := nat_of_ascii c in
  if ((65 <=? n)%nat && (n <=? 90)%nat)%bool then ascii_of_nat (n + 32) else c.

(** [s.lower()]. *)
Fixpoint lower (s : string) : string :=
  match s with
  | EmptyString => EmptyString
  | String c s' => String (lower_ascii c) (lower s')
  end.

(** [s.startswith(p)]. *)
Fixpoint startswith (p s : string) : bool :=
  match p, s with
  | EmptyString, _ => true
  | String _ _, EmptyString => false
  | String a p', String b s' => Ascii.eqb a b && startswith p' s'
  end.

(** [sub in s]: [sub] occurs in [s] at some position. *)
Fixpoint contains (sub s : string) : bool :=
  startswith sub s ||
  match s with
  | EmptyString => false
  | String _ s' => contains sub s'
  end.

(** [str(x)] of an optional text: [None] prints as the word None. *)
Definition str_of_option (o : option string) : string :=
  match o with
  | Some s => s
  | None => "None"
  end.

(** [l[-n:]]: the last [n] elements, the whole list when shorter. *)
Definition last_n {A : Type} (n : nat) (l : list A) : list A :=
  skipn (List.length l - n) l.

(** [enumerate(l, start)]. *)
Fixpoint enumerate {A : Type} (start : nat) (l : list A) : list (nat * A) :=
  match l with
  | [] => []
  | x :: rest => (start, x) :: enumerate (S start) rest
  end.

End PyStr.

Import PyStr.

(** ** Python containers: insertion-ordered dict and stable sort *)

Module PyData.

(** A [dict] with [str] keys and [int] values.  Python dicts keep the
    order in which keys were first inserted, and [items()] lists them in
    that order, so the model is an association list without duplicate
    keys. *)
Definition dict : Type := list (string * nat).

(** [d.get(k, default)]. *)
Fixpoint dict_get (d : dict) (k : string) (default : nat) : nat :=
  match d with
  | [] => default
  | (k', v) :: rest => if String.eqb k' k then v else dict_get rest k default
  end.

(** [d[k] = v]: an existing key keeps its position, a new key goes last. *)
Fixpoint dict_set (d : dict) (k : string) (v : nat) : dict :=
  match d with
  | [] => [(k, v)]
  | (k', v') :: rest =>
      if String.eqb k' k then (k', v) :: rest else (k', v') :: dict_set rest k v
  end.

(** One step of [sorted(..., reverse=True)]: [x] is placed before the
    first element whose key is not larger, hence before its equals. *)
Fixpoint insert_desc {A K : Type} (leb : K -> K -> bool) (key : A -> K)
    (x : A) (l : list A) : list A :=
  match l with
  | [] => [x]
  | y :: rest =>
      if leb (key y) (key x) then x :: y :: rest
      else y :: insert_desc leb key x rest
  end.

(** [sorted(l, key=key, reverse=True)]: descending by key; elements with
    equal keys keep the order they have in [l] (Python's sort is stable,
    also under [reverse=True]). *)
Definition sorted_reverse {A K : Type} (leb : K -> K -> bool) (key : A -> K)
    (l : list A) : list A :=
  fold_right (insert_desc leb key) [] l.

End PyData.

Import PyData.

(** ** Data model (module [decision_memory]) *)

(** Modelled from the spec: the enum [MemoryLayer] of [decision_memory],
    whose members [PRIVATE] and [SHAREABLE] main.py compares with [==]. *)
Inductive MemoryLayer : Type := PRIVATE | SHAREABLE.

Definition MemoryLayer_eqb (a b : MemoryLayer) : bool :=
  match a, b with
  | PRIVATE, PRIVATE | SHAREABLE, SHAREABLE => true
  | _, _ => false
  end.

(** Modelled from the spec: the constraint categories, the values of the
    category select box of [render_record_decision]. *)
Inductive Category : Type :=
  Time | Cost | Risk | Resource | Technical | Emotional | Other.

(** Modelled from the spec: the severities, the values of the severity
    select box of [render_record_decision]. *)
Inductive Severity : Type := Low | Medium | High.

(** The text of a category, as [f"{constraint.category}"] prints it. *)
Definition Category_str (c : Category) : string :=
  match c with
  | Time => "Time" | Cost => "Cost" | Risk => "Risk"
  | Resource => "Resource" | Technical => "Technical"
  | Emotional => "Emotional" | Other => "Other"
  end.

(** The text of a severity, as [f"{constraint.severity}"] prints it. *)
Definition Severity_str (s : Severity) : string :=
  match s with
  | Low => "Low" | Medium => "Medium" | High => "High"
  end.

Definition Category_eqb (a b : Category) : bool :=
  String.eqb (Category_str a) (Category_str b).

Definition Severity_eqb (a b : Severity) : bool :=
  String.eqb (Severity_str a) (Severity_str b).

Module Constraint.
(** Modelled from the spec: the value object [Constraint] of
    [decision_memory], built by [render_record_decision]. *)
Record t : Type := mk {
  category : Category;
  description : string;
  severity : Severity
}.
End Constraint.

Module Alternative.
(** Modelled from the spec: the value object [Alternative] of
    [decision_memory], built by [render_record_decision]. *)
Record t : Type := mk {
  option : string;
  pros : list string;
  cons : list string;
  rejected_reason : string
}.
End Alternative.

Module Decision.
(** Modelled from the spec: the entity [Decision] of [decision_memory],
    with the fields main.py reads.  [expected_outcome], [outcome_status]
    and [reflection] are optional ([decision.reflection or ""]);
    [created_at] is an ISO-8601 text ([datetime.fromisoformat]). *)
Record t : Type := mk {
  id : string;
  title : string;
  description : string;
  goal : string;
  constraints : list Constraint.t;
  alternatives : list Alternative.t;
  final_choice : string;
  reasoning : string;
  expected_outcome : Datatypes.option string;
  memory_layer : MemoryLayer;
  tags : list string;
  related_decisions : list string;
  outcome_status : Datatypes.option string;
  reflection : Datatypes.option string;
  created_at : string
}.
End Decision.

(** Modelled from the spec: the store [DecisionMemoryStore] of
    [decision_memory], as the collection of its decisions in insertion
    order. *)
Record DecisionMemoryStore : Type := mkStore {
  decisions : list Decision.t
}.

(** Modelled from the spec: [DecisionMemoryStore.get_all_decisions], the
    spec's [list(layer_filter)]: all decisions, most recently created
    first (by [created_at] descending, ties in insertion order),
    restricted to one layer when a layer is given. *)
Definition get_all_decisions (store : DecisionMemoryStore)
    (layer : Datatypes.option MemoryLayer) : list Decision.t :=
  let ordered := sorted_reverse String.leb Decision.created_at (decisions store) in
  match layer with
  | None => ordered
  | Some l => filter (fun d => MemoryLayer_eqb (Decision.memory_layer d) l) ordered
  end.

(** A sequence is most-recently-created first when [created_at] never
    increases along it. *)
Fixpoint newest_first (ds : list Decision.t) : bool :=
  match ds with
  | [] => true
  | d :: rest =>
      forallb (fun d' => String.leb (Decision.created_at d') (Decision.created_at d)) rest
      && newest_first rest
  end.

(** ** The AI context projector (main.py) *)

(** The truncation budget of [decision.reasoning[:200]]. *)
Definition reasoning_budget : nat := 200.

(** The marker the source writes after the sliced reasoning. *)
Definition truncation_marker : string := "...".

(** The four lines appended for the [i]-th summarised decision. *)
Definition decision_title_line (i : nat) (d : Decision.t) : string :=
  nl ++ "Decision " ++ str_of_nat i ++ ": " ++ Decision.title d.

Definition decision_goal_line (d : Decision.t) : string :=
  "Goal: " ++ Decision.goal d.

Definition decision_choice_line (d : Decision.t) : string :=
  "Choice: " ++ Decision.final_choice d.

Definition decision_reasoning_line (d : Decision.t) : string :=
  "Reasoning: " ++ slice_to reasoning_budget (Decision.reasoning d)
    ++ truncation_marker.

Definition decision_lines (entry : nat * Decision.t) : list string :=
  let (i, decision) := entry in
  [ decision_title_line i decision;
    decision_goal_line decision;
    decision_choice_line decision;
    decision_reasoning_line decision ].

(** The decisions the loop of [_get_decisions_summary] visits:
    [decisions[-5:]]. *)
Definition summarised (decisions : list Decision.t) : list Decision.t :=
  last_n 5 decisions.

(** [summary_lines] of [_get_decisions_summary] when the loop is over. *)
Definition decisions_summary_lines (decisions : list Decision.t) : list string :=
  ("Total decisions: " ++ str_of_nat (List.length decisions) ++ nl)
    :: flat_map decision_lines (enumerate 1 (summarised decisions)).

(** [_get_decisions_summary(decisions)]. *)
Definition _get_decisions_summary (decisions : list Decision.t) : string :=
  match decisions with
  | [] => "No decisions recorded yet."
  | _ :: _ => join nl (decisions_summary_lines decisions)
  end.

(** The dict key of a constraint:
    [f"{constraint.category} (Severity: {constraint.severity})"]. *)
Definition pattern_key (cat : Category) (sev : Severity) : string :=
  Category_str cat ++ " (Severity: " ++ Severity_str sev ++ ")".

Definition constraint_key (c : Constraint.t) : string :=
  pattern_key (Constraint.category c) (Constraint.severity c).

(** The body of the inner loop:
    [constraint_patterns[key] = constraint_patterns.get(key, 0) + 1]. *)
Definition count_constraint (constraint_patterns : dict) (c : Constraint.t) : dict :=
  let key := constraint_key c in
  dict_set constraint_patterns key (dict_get constraint_patterns key 0 + 1).

(** The inner loop over one decision's constraints. *)
Definition count_decision (constraint_patterns : dict) (d : Decision.t) : dict :=
  fold_left count_constraint (Decision.constraints d) constraint_patterns.

(** [constraint_patterns] when both loops are over. *)
Definition constraint_patterns (decisions : list Decision.t) : dict :=
  fold_left count_decision decisions [].

(** [sorted(constraint_patterns.items(), key=lambda x: x[1], reverse=True)[:5]]. *)
Definition top_patterns (patterns : dict) : list (string * nat) :=
  firstn 5 (sorted_reverse Nat.leb snd patterns).

(** One bullet line of the constraints summary. *)
Definition pattern_line (item : string * nat) : string :=
  let (constraint, count) := item in
  "• " ++ constraint ++ ": appears " ++ str_of_nat count ++ " times".

(** [_get_constraints_summary(decisions)]. *)
Definition _get_constraints_summary (decisions : list Decision.t) : string :=
  match decisions with
  | [] => "No constraints recorded yet."
  | _ :: _ =>
      match constraint_patterns decisions with
      | [] => "No constraint patterns found."
      | patterns =>
          join nl ("Your most common constraints:"
                     :: map pattern_line (top_patterns patterns))
      end
  end.

(** The arguments [render_ai_insights] passes to
    [ai_chatbot.set_user_context]: [None] when the chatbot is missing or
    the store lists no decision (no context is set then). *)
Definition render_ai_insights (ai_chatbot : bool) (store : DecisionMemoryStore)
    : Datatypes.option (string * string) :=
  if negb ai_chatbot then None
  else
    match get_all_decisions store None with
    | [] => None
    | decisions =>
        Some (_get_decisions_summary decisions, _get_constraints_summary decisions)
    end.

(** ** Exceptions *)

(** What a raised object is an instance of: [except Exception] catches
    the instances of [Exception]; [KeyboardInterrupt], [SystemExit] and
    [GeneratorExit] derive from [BaseException] only and pass through. *)
Inductive exc_class : Type := ExceptionClass | BaseExceptionOnly.

(** A raised object: its class and what [str(e)] gives. *)
Record exn : Type := mkExn {
  exn_class : exc_class;
  exn_str : string
}.

(** The result of running a Python expression: a value, or a raise. *)
Inductive outcome (A : Type) : Type :=
| Returns (a : A)
| Raises (e : exn).

Arguments Returns {A} a.
Arguments Raises {A} e.

Definition bind {A B : Type} (m : outcome A) (k : A -> outcome B) : outcome B :=
  match m with
  | Returns a => k a
  | Raises e => Raises e
  end.

Notation "x <- m ;; k" := (bind m (fun x => k))
  (at level 61, m at next level, right associativity).

(** [try: body  except Exception as e: handler(e)]. *)
Definition try_except_Exception {A : Type} (body : outcome A)
    (handler : exn -> outcome A) : outcome A :=
  match body with
  | Returns a => Returns a
  | Raises e =>
      match exn_class e with
      | ExceptionClass => handler e
      | BaseExceptionOnly => Raises e
      end
  end.

(** ** The reflection service (reflection_gemini.py) *)

(** The part of [google.generativeai] that [reflect] calls; each call may
    raise. *)
Record Genai : Type := mkGenai {
  model : Type;
  response : Type;
  GenerativeModel : string -> outcome model;
  generate_content : model -> string -> outcome response;
  text : response -> outcome string
}.

(** The instance attributes of [GeminiReflectionAI]. *)
Record GeminiReflectionAI : Type := mkGeminiReflectionAI {
  enabled : bool;
  api_key : Datatypes.option string
}.

(** Truth value of an optional text: [None] and the empty text are false. *)
Definition truthy (o : Datatypes.option string) : bool :=
  match o with
  | Some (String _ _) => true
  | Some EmptyString => false
  | None => false
  end.

(** [GeminiReflectionAI.__init__(self, enabled)]; [getenv] is what
    [os.getenv("GEMINI_API_KEY")] returns. *)
Definition GeminiReflectionAI_init (enabled : bool)
    (getenv : Datatypes.option string) : GeminiReflectionAI :=
  {| enabled := enabled;
     api_key := if enabled then (if truthy getenv then getenv else None)
                else None |}.

Definition disabled_message : string :=
  "Reflection AI disabled or API key missing.".

Definition failure_prefix : string := "Reflection AI failed: ".

(** The body of the [try] block of [reflect]: build the model, ask it
    for content, read the text of the response. *)
Definition call_model (G : Genai) (decision_history_text : string)
    : outcome string :=
  m <- GenerativeModel G "gemini-2.5-flash" ;;
  r <- generate_content G m decision_history_text ;;
  text G r.

(** [GeminiReflectionAI.reflect(self, decision_history_text)]. *)
Definition reflect (G : Genai) (self : GeminiReflectionAI)
    (decision_history_text : string) : outcome string :=
  if negb (enabled self) || negb (truthy (api_key self)) then
    Returns disabled_message
  else
    try_except_Exception
      (call_model G decision_history_text)
      (fun e => Returns (failure_prefix ++ exn_str e)).

(** ** The reflection tab of [render_decision_detail] (main.py) *)

Definition indent : string := "        ".

(** The f-string [decision_history_text], piece by piece. *)
Definition decision_history_parts (decision : Decision.t)
    (new_reflection : string) : list string :=
  [ nl ++ indent; "Decision: "; Decision.title decision;
    nl ++ indent; "Goal: "; Decision.goal decision;
    nl ++ indent; "Description: "; Decision.description decision;
    nl ++ indent; "Final Choice: "; Decision.final_choice decision;
    nl ++ indent; "Reasoning: "; Decision.reasoning decision;
    nl ++ indent; "Expected Outcome: ";
      str_of_option (Decision.expected_outcome decision);
    nl ++ indent; "Constraints: ";
      join ", " (map Constraint.description (Decision.constraints decision));
    nl ++ indent; "Alternatives Considered: ";
      join ", " (map Alternative.option (Decision.alternatives decision));
    nl ++ indent; "Reflection: "; new_reflection;
    nl ++ indent ].

Definition decision_history_text (decision : Decision.t)
    (new_reflection : string) : string :=
  join "" (decision_history_parts decision new_reflection).

(** What the page shows for the returned text: the insight with the
    button that appends it to the reflection, or an error. *)
Inductive reflection_view : Type :=
| Insight (ai_reflection : string)
| Error (ai_reflection : string).

(** [if "failed" not in ai_reflection.lower(): ... else: st.error(...)]. *)
Definition show_ai_reflection (ai_reflection : string) : reflection_view :=
  if negb (contains "failed" (lower ai_reflection)) then Insight ai_reflection
  else Error ai_reflection.

(** The body of the button handler: construct the service with
    [enabled=True], call [reflect], branch on the returned text. *)
Definition get_gemini_reflection (G : Genai) (getenv : Datatypes.option string)
    (decision : Decision.t) (new_reflection : string) : outcome reflection_view :=
  let reflection_ai := GeminiReflectionAI_init true getenv in
  ai_reflection <- reflect G reflection_ai
                     (decision_history_text decision new_reflection) ;;
  Returns (show_ai_reflection ai_reflection).

(** ** The specification's wording, for comparison with the code *)

Module Spec.

(** Excerpt with a marker only when truncated: the reasoning cut to the
    budget and followed by the marker when it is longer than the budget,
    the reasoning itself otherwise. *)
Definition reasoning_excerpt (reasoning : string) : string :=
  if (reasoning_budget <? String.length reasoning)%nat
  then slice_to reasoning_budget reasoning ++ truncation_marker
  else reasoning.

(** A frequency-table key: a pair of category and severity. *)
Definition pattern : Type := (Category * Severity)%type.

Definition pattern_of (c : Constraint.t) : pattern :=
  (Constraint.category c, Constraint.severity c).

Definition pattern_eqb (p q : pattern) : bool :=
  Category_eqb (fst p) (fst q) && Severity_eqb (snd p) (snd q).

(** All constraints of all supplied decisions, in order. *)
Definition all_constraints (decisions : list Decision.t) : list Constraint.t :=
  flat_map Decision.constraints decisions.

(** The distinct patterns of a list, in first-encountered order. *)
Fixpoint first_seen (ps : list pattern) : list pattern :=
  match ps with
  | [] => []
  | p :: rest => p :: filter (fun q => negb (pattern_eqb q p)) (first_seen rest)
  end.

(** How many constraints have the pattern [p]. *)
Definition frequency (p : pattern) (cs : list Constraint.t) : nat :=
  List.length (filter (fun c => pattern_eqb (pattern_of c) p) cs).

(** The frequency table of a list of constraints, keyed by (category,
    severity), rows in first-encountered order. *)
Definition table_of (cs : list Constraint.t) : list (pattern * nat) :=
  map (fun p => (p, frequency p cs)) (first_seen (map pattern_of cs)).

(** The frequency table over all constraints of all supplied decisions. *)
Definition frequency_table (decisions : list Decision.t) : list (pattern * nat) :=
  table_of (all_constraints decisions).

(** Descending by frequency. *)
Definition descending (rows : list (pattern * nat)) : Prop :=
  StronglySorted (fun a b => snd b <= snd a) rows.

(** Ties broken by first-encountered order: rows of equal frequency
    stand in the order they have in the table. *)
Definition ties_in_table_order (table rows : list (pattern * nat)) : Prop :=
  forall n : nat,
    filter (fun r => Nat.eqb (snd r) n) rows
    = filter (fun r => Nat.eqb (snd r) n) table.

(** The bullet line "category (Severity: severity): appears N times". *)
Definition bullet_line (row : pattern * nat) : string :=
  "• " ++ Category_str (fst (fst row)) ++ " (Severity: "
    ++ Severity_str (snd (fst row)) ++ "): appears "
    ++ str_of_nat (snd row) ++ " times".

(** A text contains the word "failed" in some mix of upper and lower
    case: it splits around a piece whose lower-case form is "failed". *)
Definition contains_failed_ignoring_case (s : string) : Prop :=
  exists pre mid post : string,
    s = pre ++ mid ++ post /\ lower mid = "failed".

(** [label] directly followed by [value] occurs in [text]. *)
Definition labelled (label value text : string) : Prop :=
  exists pre post : string, text = pre ++ label ++ value ++ post.

(** [s] occurs in [text]. *)
Definition occurs (s text : string) : Prop :=
  exists pre post : string, text = pre ++ s ++ post.

End Spec.

(** ** Sample data *)

Module Sample.

Definition decision (title reasoning created_at : string)
    (layer : MemoryLayer) (constraints : list Constraint.t) : Decision.t :=
  Decision.mk "" title ("About " ++ title) ("Goal of " ++ title)
    constraints [] ("Choice of " ++ title) reasoning None layer [] [] None None
    created_at.

Definition time_high : Constraint.t := Constraint.mk Time "Two weeks" High.
Definition cost_low : Constraint.t := Constraint.mk Cost "Small budget" Low.
Definition risk_medium : Constraint.t := Constraint.mk Risk "Unknown vendor" Medium.

(** Six decisions, one per month, listed most recently created first. *)
Definition june : Decision.t :=
  decision "June" "short" "2025-06-15T10:00:00" SHAREABLE [time_high; cost_low].
Definition may : Decision.t :=
  decision "May" "short" "2025-05-15T10:00:00" SHAREABLE [cost_low].
Definition april : Decision.t :=
  decision "April" "short" "2025-04-15T10:00:00" SHAREABLE [].
Definition march : Decision.t :=
  decision "March" "short" "2025-03-15T10:00:00" SHAREABLE [risk_medium; cost_low].
Definition february : Decision.t :=
  decision "February" "short" "2025-02-15T10:00:00" SHAREABLE [].
Definition january : Decision.t :=
  decision "January" "short" "2025-01-15T10:00:00" SHAREABLE [time_high].

Definition six : list Decision.t := [june; may; april; march; february; january].

(** A shareable and a private decision. *)
Definition public_plan : Decision.t :=
  decision "Pick a framework" "It is well known." "2025-06-01T10:00:00"
    SHAREABLE [time_high].
Definition secret_plan : Decision.t :=
  decision "Leave the company" "Personal reasons." "2025-06-02T10:00:00"
    PRIVATE [cost_low].

Definition store_with_secret : DecisionMemoryStore := mkStore [public_plan; secret_plan].
Definition store_without_secret : DecisionMemoryStore := mkStore [public_plan].

(** A decision with no constraint at all. *)
Definition unconstrained : Decision.t :=
  decision "Rest" "short" "2025-06-01T10:00:00" SHAREABLE [].

(** A service whose model call raises an [Exception]. *)
Definition timeout_error : exn := mkExn ExceptionClass "deadline exceeded".

Definition failing_genai : Genai :=
  mkGenai unit unit (fun _ => Returns tt) (fun _ _ => Raises timeout_error)
    (fun _ => Returns "unused").

(** A service that answers with the text it was given. *)
Definition echo_genai : Genai :=
  mkGenai unit string (fun _ => Returns tt) (fun _ t => Returns t)
    (fun r => Returns r).

End Sample.

(** ** Relating the dict of the code to the table of the specification *)

Module Refinement.

(** The dict item that stands for a table row: the key is the text of the
    pattern. *)
Definition key_row (row : Spec.pattern * nat) : string * nat :=
  (pattern_key (fst (fst row)) (snd (fst row)), snd row).

(** One more occurrence of [p]: its row is incremented in place, or a
    new row with count 1 is added last. *)
Fixpoint bump (p : Spec.pattern) (table : list (Spec.pattern * nat))
    : list (Spec.pattern * nat) :=
  match table with
  | [] => [(p, 1)]
  | (q, n) :: rest =>
      if Spec.pattern_eqb q p then (q, n + 1) :: rest
      else (q, n) :: bump p rest
  end.

(** 1 when the two patterns are the same, 0 otherwise. *)
Definition hit (p q : Spec.pattern) : nat :=
  if Spec.pattern_eqb p q then 1 else 0.

End Refinement.

(** ** More of main.py: forms, filters, counts and navigation *)

(** Truth value of a text: only the empty text is false. *)
Definition truthy_str (s : string) : bool :=
  match s with
  | EmptyString => false
  | String _ _ => true
  end.

(** [l.index(x)]: the position of the first [x]; [None] stands for the
    [ValueError] Python raises when [x] is not in [l]. *)
Fixpoint list_index (l : list string) (x : string) : Datatypes.option nat :=
  match l with
  | [] => None
  | y :: rest =>
      if String.eqb y x then Some 0
      else match list_index rest x with
           | Some i => Some (S i)
           | None => None
           end
  end.

(** [d.get(k, default)] on a dict literal with text values. *)
Fixpoint str_dict_get (d : list (string * string)) (k default : string) : string :=
  match d with
  | [] => default
  | (k', v) :: rest => if String.eqb k' k then v else str_dict_get rest k default
  end.

(** [d[k]] on a dict literal with text values; [None] stands for the
    [KeyError] Python raises on a missing key. *)
Fixpoint str_dict_lookup (d : list (string * string)) (k : string)
    : Datatypes.option string :=
  match d with
  | [] => None
  | (k', v) :: rest => if String.eqb k' k then Some v else str_dict_lookup rest k
  end.

(** [x or default] for an optional text. *)
Definition py_or (x : Datatypes.option string) (default : string) : string :=
  match x with
  | Some (String c s) => String c s
  | Some EmptyString => default
  | None => default
  end.

(** What [st.radio] and [st.selectbox] return: the option the user
    picked, or the option at the preselected [index] when nothing was
    picked. *)
Definition widget_value (options : list string) (index : nat)
    (picked : Datatypes.option nat) : Datatypes.option string :=
  nth_error options (match picked with Some i => i | None => index end).

(** *** Privacy labels *)

(** [MemoryLayer.PRIVATE if "🔒" in label else MemoryLayer.SHAREABLE]
    (render_record_decision, render_decision_timeline,
    render_edit_decision). *)
Definition layer_of_label (label : string) : MemoryLayer :=
  if contains "🔒" label then PRIVATE else SHAREABLE.

(** [memory_icon] of render_decision_timeline and render_decision_detail. *)
Definition memory_icon (decision : Decision.t) : string :=
  if MemoryLayer_eqb (Decision.memory_layer decision) PRIVATE then "🔒" else "🔓".

(** The privacy radio of render_record_decision: [index=0]. *)
Definition record_layer_options : list string :=
  [ "🔒 Private (Only visible to you)";
    "🔓 Shareable (Can be shared with AI for context)" ].

(** The privacy radio of render_edit_decision and its preselected index. *)
Definition edit_layer_options : list string := ["🔒 Private"; "🔓 Shareable"].

Definition edit_layer_index (decision : Decision.t) : nat :=
  if MemoryLayer_eqb (Decision.memory_layer decision) PRIVATE then 0 else 1.

(** [memory_layer_enum] of render_edit_decision. *)
Definition edit_memory_layer (decision : Decision.t)
    (picked : Datatypes.option nat) : Datatypes.option MemoryLayer :=
  option_map layer_of_label
    (widget_value edit_layer_options (edit_layer_index decision) picked).

(** *** The filters of render_decision_timeline *)

(** [selected_tag in d.tags]. *)
Definition has_tag (tag : string) (d : Decision.t) : bool :=
  existsb (String.eqb tag) (Decision.tags d).

(** [filtered_decisions] after the three filters; [search_decisions] is
    the store's search, which lives in [decision_memory]. *)
Definition filtered_decisions (search_decisions : string -> list Decision.t)
    (decisions : list Decision.t)
    (search_query selected_layer selected_tag : string) : list Decision.t :=
  let filtered := decisions in
  let filtered :=
    if truthy_str search_query then search_decisions search_query
    else filtered in
  let filtered :=
    if negb (String.eqb selected_layer "All") then
      let layer := layer_of_label selected_layer in
      filter (fun d => MemoryLayer_eqb (Decision.memory_layer d) layer) filtered
    else filtered in
  let filtered :=
    if negb (String.eqb selected_tag "All") then
      filter (has_tag selected_tag) filtered
    else filtered in
  filtered.

(** *** The counts of render_analytics *)

(** [len([d for d in decisions if d.memory_layer == MemoryLayer.PRIVATE])]. *)
Definition private_count (decisions : list Decision.t) : nat :=
  List.length
    (filter (fun d => MemoryLayer_eqb (Decision.memory_layer d) PRIVATE) decisions).

(** [len([d for d in decisions if d.memory_layer == MemoryLayer.SHAREABLE])]. *)
Definition shareable_count (decisions : list Decision.t) : nat :=
  List.length
    (filter (fun d => MemoryLayer_eqb (Decision.memory_layer d) SHAREABLE) decisions).

(** [sum(len(d.constraints) for d in decisions)], the numerator of
    [avg_constraints]. *)
Definition total_constraints (decisions : list Decision.t) : nat :=
  list_sum (map (fun d => List.length (Decision.constraints d)) decisions).

(** *** The reflection tab of render_decision_detail *)

Definition status_options : list string :=
  ["Pending Review"; "Completed"; "In Progress"; "Reviewing"].

(** [decision.outcome_status or "Pending Review"]. *)
Definition current_status (decision : Decision.t) : string :=
  py_or (Decision.outcome_status decision) "Pending Review".

(** The [index=] argument of the status select box; [None] when
    [list.index] raises. *)
Definition status_index (decision : Decision.t) : Datatypes.option nat :=
  list_index status_options (current_status decision).

(** The colour dict of the constraints column. *)
Definition severity_colors : list (string * string) :=
  [("high", "🔴"); ("medium", "🟡"); ("low", "🟢")].

(** [severity_color] of a constraint:
    [{...}.get(constraint.severity.lower(), "⚪")]. *)
Definition severity_color (c : Constraint.t) : string :=
  str_dict_get severity_colors (lower (Severity_str (Constraint.severity c))) "⚪".

(** [updated_reflection] of the button that adds the AI insight. *)
Definition updated_reflection (new_reflection ai_reflection : string) : string :=
  new_reflection ++ (nl ++ nl ++ "**AI Insight**: " ++ ai_reflection).

(** *** The form of render_record_decision *)

(** The three widgets of one constraint row. *)
Record ConstraintRow : Type := mkConstraintRow {
  row_category : Category;
  row_description : string;
  row_severity : Severity
}.

(** The four widgets of one alternative row. *)
Record AlternativeRow : Type := mkAlternativeRow {
  row_option : string;
  row_pros : list string;
  row_cons : list string;
  row_rejected_reason : string
}.

(** [constraints_list] when the loop over the rows is over: a row is
    kept when [category and description_c]. *)
Definition constraints_list (rows : list ConstraintRow) : list Constraint.t :=
  flat_map
    (fun row =>
       if truthy_str (Category_str (row_category row))
          && truthy_str (row_description row)
       then [Constraint.mk (row_category row) (row_description row)
               (row_severity row)]
       else [])
    rows.

(** [alternatives_list] when the loop over the rows is over: a row is
    kept when [option]. *)
Definition alternatives_list (rows : list AlternativeRow) : list Alternative.t :=
  flat_map
    (fun row =>
       if truthy_str (row_option row)
       then [Alternative.mk (row_option row) (row_pros row) (row_cons row)
               (row_rejected_reason row)]
       else [])
    rows.

(** What the user entered in the form. *)
Record DecisionForm : Type := mkDecisionForm {
  form_title : string;
  form_description : string;
  form_goal : string;
  form_constraint_rows : list ConstraintRow;
  form_alternative_rows : list AlternativeRow;
  form_final_choice : string;
  form_reasoning : string;
  form_expected_outcome : string;
  form_tags_input : list string;
  form_memory_layer : string;
  form_consent : bool
}.

Module DecisionArgs.
(** The keyword arguments of the call [Decision(...)] in
    render_record_decision. *)
Record t : Type := mk {
  id : string;
  title : string;
  description : string;
  goal : string;
  constraints : list Constraint.t;
  alternatives : list Alternative.t;
  final_choice : string;
  reasoning : string;
  expected_outcome : string;
  memory_layer : MemoryLayer;
  tags : list string
}.
End DecisionArgs.

(** The outcome of pressing the save button: the error shown, or the
    arguments of the decision handed to [add_decision]. *)
Inductive submit_result : Type :=
| FormError (message : string)
| Recorded (decision : DecisionArgs.t).

(** The body of [if submitted:] in render_record_decision. *)
Definition submit_decision (form : DecisionForm) : submit_result :=
  if negb (truthy_str (form_title form))
     || negb (truthy_str (form_description form))
     || negb (truthy_str (form_goal form))
     || negb (truthy_str (form_final_choice form))
     || negb (truthy_str (form_reasoning form))
     || negb (form_consent form)
  then FormError "Please fill all required fields and confirm consent"
  else
    Recorded
      (DecisionArgs.mk ""
         (form_title form) (form_description form) (form_goal form)
         (constraints_list (form_constraint_rows form))
         (alternatives_list (form_alternative_rows form))
         (form_final_choice form) (form_reasoning form)
         (form_expected_outcome form)
         (layer_of_label (form_memory_layer form))
         (form_tags_input form)).

(** *** The sidebar navigation of main *)

Definition nav_labels : list string :=
  ["Home"; "Record Decision"; "View Timeline"; "AI Insights"; "Analytics"].

Definition nav_keys : list string :=
  ["home"; "record"; "timeline"; "ai_insights"; "analytics"].

Definition page_mapping : list (string * string) :=
  [ ("Home", "home"); ("Record Decision", "record");
    ("View Timeline", "timeline"); ("AI Insights", "ai_insights");
    ("Analytics", "analytics") ].

(** [current_view] after the sidebar block of [main]; [picked] is the
    radio entry the user clicked, if any.  [None] stands for a raise
    ([ValueError] of [index], [KeyError] of [page_mapping[page]]). *)
Definition sidebar_view (current_view : string)
    (picked : Datatypes.option nat) : Datatypes.option string :=
  if existsb (String.eqb current_view) nav_keys then
    match list_index nav_keys current_view with
    | Some idx =>
        match widget_value nav_labels idx picked with
        | Some page => str_dict_lookup page_mapping page
        | None => None
        end
    | None => None
    end
  else Some current_view.

(** ** Relations used to state what the summaries do not read *)

Module Reads.

(** Two decisions agree on what [_get_decisions_summary] prints of them. *)
Definition same_summary_fields (a b : Decision.t) : Prop :=
  Decision.title a = Decision.title b
  /\ Decision.goal a = Decision.goal b
  /\ Decision.final_choice a = Decision.final_choice b
  /\ slice_to reasoning_budget (Decision.reasoning a)
     = slice_to reasoning_budget (Decision.reasoning b).

(** The (category, severity) pairs of the constraints of each decision. *)
Definition patterns_of (decisions : list Decision.t) : list (list Spec.pattern) :=
  map (fun d => map Spec.pattern_of (Decision.constraints d)) decisions.

End Reads.

(** ** More sample data *)

Module Sample2.

(** A run interrupted from the keyboard while the model is asked. *)
Definition keyboard_interrupt : exn := mkExn BaseExceptionOnly "".

Definition interrupted_genai : Genai :=
  mkGenai unit unit (fun _ => Returns tt) (fun _ _ => Raises keyboard_interrupt)
    (fun _ => Returns "unused").

(** A service whose answer speaks of a failed plan. *)
Definition candid_genai : Genai :=
  mkGenai unit unit (fun _ => Returns tt) (fun _ _ => Returns tt)
    (fun _ => Returns "The first attempt FAILED, the second one worked.").

(** The decision [Sample.secret_plan] with another layer, other
    constraints and a reasoning that differs after 200 characters. *)
Definition long_a : Decision.t :=
  Sample.decision "Long" (String.concat "" (repeat "0123456789" 20) ++ "tail A")
    "2025-01-01T00:00:00" PRIVATE [Sample.cost_low].

Definition long_b : Decision.t :=
  Sample.decision "Long" (String.concat "" (repeat "0123456789" 20) ++ "another tail")
    "2025-02-02T00:00:00" SHAREABLE [].

(** Constraints with the patterns of [Sample.time_high] and
    [Sample.cost_low], described otherwise. *)
Definition time_high' : Constraint.t := Constraint.mk Time "Deadline on Friday" High.
Definition cost_low' : Constraint.t := Constraint.mk Cost "Free tier only" Low.

Definition rows : list ConstraintRow :=
  [ mkConstraintRow Time "Two weeks" High;
    mkConstraintRow Cost "" Low;
    mkConstraintRow Risk "Unknown vendor" Medium ].

Definition alternative_rows : list AlternativeRow :=
  [ mkAlternativeRow "" ["Simple"] [] "";
    mkAlternativeRow "Keep the old stack" ["Familiar"] ["Outdated"] "Too slow" ].

Definition form : DecisionForm :=
  mkDecisionForm "Pick a framework" "Which framework to use" "Ship faster"
    rows alternative_rows "React" "It is well known." ""
    ["Technical"] "🔒 Private (Only visible to you)" true.

Definition reviewed : Decision.t :=
  Decision.mk "id-1" "Reviewed" "d" "g" [] [] "c" "r" None SHAREABLE
    ["Career"; "Technical"] [] (Some "In Progress") None "2025-03-01T00:00:00".

Definition archived : Decision.t :=
  Decision.mk "id-2" "Archived" "d" "g" [] [] "c" "r" None PRIVATE
    ["Career"] [] (Some "Archived") None "2025-03-02T00:00:00".

End Sample2.

(** * Properties *)

(** ** The primitives on small inputs *)

Example slice_to_short : slice_to 3 "ab" = "ab".
Proof. reflexivity. Qed.

Example slice_to_long : slice_to 3 "abcdef" = "abc".
Proof. reflexivity. Qed.

Example join_three : join ", " ["a"; "b"; "c"] = "a, b, c".
Proof. reflexivity. Qed.

Example str_of_nat_0 : str_of_nat 0 = "0".
Proof. reflexivity. Qed.

Example str_of_nat_12 : str_of_nat 12 = "12".
Proof. reflexivity. Qed.

Example lower_mixed : lower "FaiLeD 1!" = "failed 1!".
Proof. reflexivity. Qed.

Example contains_mid : contains "failed" "it failed." = true.
Proof. reflexivity. Qed.

Example contains_not : contains "failed" "it fail ed." = false.
Proof. reflexivity. Qed.

Example last_n_six : last_n 5 [1; 2; 3; 4; 5; 6] = [2; 3; 4; 5; 6].
Proof. reflexivity. Qed.

Example last_n_two : last_n 5 [1; 2] = [1; 2].
Proof. reflexivity. Qed.

Example bullet_bytes : String.length "•" = 3.
Proof. reflexivity. Qed.

Example sorted_reverse_stable :
  sorted_reverse Nat.leb snd [("a", 1); ("b", 2); ("c", 1); ("d", 2)]
  = [("b", 2); ("d", 2); ("a", 1); ("c", 1)].
Proof. reflexivity. Qed.

Example dict_set_keeps_position :
  dict_set [("a", 1); ("b", 2)] "a" 5 = [("a", 5); ("b", 2)]
  /\ dict_set [("a", 1); ("b", 2)] "c" 1 = [("a", 1); ("b", 2); ("c", 1)].
Proof. split; reflexivity. Qed.

Example six_constraint_patterns :
  constraint_patterns Sample.six
  = [("Time (Severity: High)", 2); ("Cost (Severity: Low)", 3);
     ("Risk (Severity: Medium)", 1)].
Proof. reflexivity. Qed.

(** ** Strings *)

Section StringFacts.

Lemma append_assoc (a b c : string) : (a ++ b) ++ c = a ++ b ++ c.
Proof.
  induction a as [|x a IH]; simpl; [reflexivity|].
  now rewrite IH.
Qed.

Lemma append_empty_r (a : string) : a ++ "" = a.
Proof.
  induction a as [|x a IH]; simpl; [reflexivity|].
  now rewrite IH.
Qed.

Lemma length_append (a b : string) :
  String.length (a ++ b) = String.length a + String.length b.
Proof.
  induction a as [|x a IH]; simpl; [reflexivity|].
  now rewrite IH.
Qed.

Lemma length_slice_to (n : nat) (s : string) :
  String.length (slice_to n s) = Nat.min n (String.length s).
Proof.
  revert s; induction n as [|n IH]; intros [|c s]; simpl; try reflexivity.
  now rewrite IH.
Qed.

Lemma slice_to_all (n : nat) (s : string) :
  String.length s <= n -> slice_to n s = s.
Proof.
  revert s; induction n as [|n IH]; intros [|c s]; simpl; intros H;
    try reflexivity; try lia.
  rewrite IH; [reflexivity | lia].
Qed.

Lemma lower_append (a b : string) : lower (a ++ b) = lower a ++ lower b.
Proof.
  induction a as [|x a IH]; simpl; [reflexivity|].
  now rewrite IH.
Qed.

Lemma startswith_append (p rest : string) : startswith p (p ++ rest) = true.
Proof.
  induction p as [|x p IH]; simpl; [reflexivity|].
  now rewrite Ascii.eqb_refl, IH.
Qed.

Lemma startswith_split (p s : string) :
  startswith p s = true -> exists rest, s = p ++ rest.
Proof.
  revert s; induction p as [|x p IH]; intros s H.
  - now exists s.
  - destruct s as [|y s]; simpl in H; [discriminate|].
    apply andb_true_iff in H as [Hxy Hp].
    apply Ascii.eqb_eq in Hxy; subst y.
    destruct (IH _ Hp) as [rest ->].
    now exists rest.
Qed.

Lemma startswith_contains (sub s : string) :
  startswith sub s = true -> contains sub s = true.
Proof.
  intros H. destruct s; simpl; now rewrite H.
Qed.

Lemma contains_occurs (sub s : string) :
  contains sub s = true <-> Spec.occurs sub s.
Proof.
  split.
  - induction s as [|c s IH]; simpl; intros H.
    + rewrite orb_false_r in H.
      destruct (startswith_split _ _ H) as [rest Hr].
      exists "", rest. exact Hr.
    + apply orb_true_iff in H as [H|H].
      * destruct (startswith_split _ _ H) as [rest Hr].
        exists "", rest. exact Hr.
      * destruct (IH H) as (pre & post & ->).
        now exists (String c pre), post.
  - intros (pre & post & ->).
    induction pre as [|c pre IH]; simpl.
    + apply startswith_contains, startswith_append.
    + rewrite IH. apply orb_true_r.
Qed.

(** A prefix of [lower s] is the lower-case form of a prefix of [s]. *)
Lemma startswith_lower_split (p s : string) :
  startswith p (lower s) = true ->
  exists mid post, s = mid ++ post /\ lower mid = p.
Proof.
  revert s; induction p as [|x p IH]; intros s H.
  - now exists "", s.
  - destruct s as [|y s]; simpl in H; [discriminate|].
    apply andb_true_iff in H as [Hxy Hp].
    apply Ascii.eqb_eq in Hxy.
    destruct (IH _ Hp) as (mid & post & -> & Hm).
    exists (String y mid), post. simpl. now rewrite Hm, <- Hxy.
Qed.

Lemma contains_lower_split (p s : string) :
  contains p (lower s) = true ->
  exists pre mid post, s = pre ++ mid ++ post /\ lower mid = p.
Proof.
  induction s as [|c s IH]; simpl; intros H.
  - rewrite orb_false_r in H.
    destruct (startswith_lower_split p "" H) as (mid & post & E & Hm).
    now exists "", mid, post.
  - apply orb_true_iff in H as [H|H].
    + destruct (startswith_lower_split p (String c s) H) as (mid & post & E & Hm).
      now exists "", mid, post.
    + destruct (IH H) as (pre & mid & post & -> & Hm).
      now exists (String c pre), mid, post.
Qed.

Lemma join_empty_cons (p : string) (rest : list string) :
  join "" (p :: rest) = p ++ join "" rest.
Proof.
  destruct rest as [|q rest]; simpl; [now rewrite append_empty_r | reflexivity].
Qed.

Lemma join_empty_app (l1 l2 : list string) :
  join "" (l1 ++ l2)%list = join "" l1 ++ join "" l2.
Proof.
  induction l1 as [|p l1 IH]; [reflexivity|].
  change ((p :: l1) ++ l2)%list with (p :: (l1 ++ l2))%list.
  now rewrite !join_empty_cons, IH, append_assoc.
Qed.

(** An element of a joined list occurs in the joined text. *)
Lemma join_occurs (sep x : string) (l : list string) :
  In x l -> Spec.occurs x (join sep l).
Proof.
  induction l as [|p l IH]; intros H; [contradiction|].
  destruct H as [->|H].
  - destruct l as [|q l]; simpl.
    + exists "", "". now rewrite append_empty_r.
    + now exists "", (sep ++ join sep (q :: l)).
  - destruct (IH H) as (pre & post & E).
    destruct l as [|q l]; [contradiction|].
    exists (p ++ sep ++ pre), post.
    change (join sep (p :: q :: l)) with (p ++ sep ++ join sep (q :: l)).
    now rewrite E, !append_assoc.
Qed.

End StringFacts.

(** ** The decisions summary *)

Section DecisionsSummary.

Lemma enumerate_In {A : Type} (x : A) (l : list A) (start : nat) :
  In x l -> exists i, In (i, x) (enumerate start l).
Proof.
  revert start; induction l as [|y l IH]; intros start H; [contradiction|].
  destruct H as [->|H].
  - exists start. now left.
  - destruct (IH (S start) H) as [i Hi]. exists i. now right.
Qed.

Lemma enumerate_snd {A : Type} (l : list A) (start : nat) :
  map snd (enumerate start l) = l.
Proof.
  revert start; induction l as [|y l IH]; intros start; simpl;
    [reflexivity | now rewrite IH].
Qed.

Lemma summarised_nonempty (decisions : list Decision.t) (d : Decision.t) :
  In d (summarised decisions) -> decisions <> [].
Proof.
  intros H ->. exact H.
Qed.


(** With more than five decisions the head of the list is left out. *)
Lemma summarised_drops_head (d : Decision.t) (rest : list Decision.t) :
  5 <= List.length rest -> summarised (d :: rest) = summarised rest.
Proof.
  intros H. unfold summarised, last_n.
  replace (List.length (d :: rest) - 5) with (S (List.length rest - 5))
    by (simpl; lia).
  reflexivity.
Qed.

(** Every line of a summarised decision is among the summary lines. *)
Lemma decision_lines_in_summary (decisions : list Decision.t) (d : Decision.t) :
  In d (summarised decisions) ->
  exists i,
    incl (decision_lines (i, d)) (decisions_summary_lines decisions).
Proof.
  intros H.
  destruct (enumerate_In d _ 1 H) as [i Hi].
  exists i. intros line Hline.
  right. apply in_flat_map. now exists (i, d).
Qed.

Lemma summary_line_occurs (decisions : list Decision.t) (line : string) :
  decisions <> [] ->
  In line (decisions_summary_lines decisions) ->
  Spec.occurs line (_get_decisions_summary decisions).
Proof.
  intros Hne Hin.
  destruct decisions as [|d0 rest]; [contradiction|].
  now apply join_occurs.
Qed.

End DecisionsSummary.

(** C8: on the empty sequence [_get_decisions_summary] returns the fixed
    placeholder "No decisions recorded yet.", which is not the empty
    text; the function is total, so no error is raised. *)
Theorem decisions_summary_empty_placeholder :
  _get_decisions_summary [] = "No decisions recorded yet."
  /\ _get_decisions_summary [] <> "".
Proof.
  split; [reflexivity | discriminate].
Qed.

(** C2 (code at the failing input): on six decisions listed most
    recently created first, the summary covers the last five of the list,
    the five oldest: the most recent decision (June) is absent from the
    text and the oldest (January) is present, so the summarised decisions
    are not the first five. *)
Theorem decisions_summary_omits_most_recent :
  newest_first Sample.six = true
  /\ summarised Sample.six
     = [Sample.may; Sample.april; Sample.march; Sample.february; Sample.january]
  /\ summarised Sample.six <> firstn 5 Sample.six
  /\ contains (Decision.title Sample.june) (_get_decisions_summary Sample.six) = false
  /\ contains (Decision.title Sample.january) (_get_decisions_summary Sample.six) = true.
Proof.
  repeat split; try reflexivity.
  vm_compute. discriminate.
Qed.

(** C3 (counterexample): a reasoning of five characters is within the
    budget of 200, yet its line carries the marker; the claimed excerpt
    would carry none. *)
Lemma short_reasoning_carries_marker :
  String.length (Decision.reasoning Sample.june) <= reasoning_budget
  /\ decision_reasoning_line Sample.june = "Reasoning: short..."
  /\ decision_reasoning_line Sample.june
     <> "Reasoning: " ++ Spec.reasoning_excerpt (Decision.reasoning Sample.june).
Proof.
  split; [vm_compute; lia|].
  split; [reflexivity|].
  vm_compute. discriminate.
Qed.

(** C3 (as amended): for every decision in the summary, the text holds
    the line made of the label, the first 200 characters of the reasoning
    (all of it when it is no longer) and the marker "...", which is
    appended in every case; a longer reasoning shows exactly 200
    characters before the marker. *)
Theorem reasoning_excerpt_always_marked
    (decisions : list Decision.t) (d : Decision.t) :
  In d (summarised decisions) ->
  Spec.occurs (decision_reasoning_line d) (_get_decisions_summary decisions)
  /\ decision_reasoning_line d
     = "Reasoning: " ++ slice_to 200 (Decision.reasoning d) ++ "..."
  /\ String.length (slice_to 200 (Decision.reasoning d))
     = Nat.min 200 (String.length (Decision.reasoning d))
  /\ (200 < String.length (Decision.reasoning d) ->
      String.length (slice_to 200 (Decision.reasoning d)) = 200)
  /\ (String.length (Decision.reasoning d) <= 200 ->
      slice_to 200 (Decision.reasoning d) = Decision.reasoning d).
Proof.
  intros Hd.
  split.
  - destruct (decision_lines_in_summary _ _ Hd) as [i Hi].
    apply summary_line_occurs; [now apply (summarised_nonempty _ d)|].
    apply Hi. simpl. tauto.
  - split; [reflexivity|].
    split; [apply length_slice_to|].
    split.
    + intros Hlong. rewrite length_slice_to. lia.
    + apply slice_to_all.
Qed.

Lemma reasoning_excerpt_always_marked_witness :
  In Sample.may (summarised Sample.six)
  /\ Spec.occurs (decision_reasoning_line Sample.may)
       (_get_decisions_summary Sample.six).
Proof.
  split.
  - simpl. tauto.
  - apply (reasoning_excerpt_always_marked Sample.six Sample.may).
    simpl. tauto.
Defined.

(** ** The AI-facing context *)

(** Whatever its layer, a decision among the summarised ones of the
    unfiltered list has its title in the context. *)
Lemma ai_context_mentions_summarised (store : DecisionMemoryStore)
    (d : Decision.t) :
  In d (summarised (get_all_decisions store None)) ->
  exists decisions_summary constraints_summary,
    render_ai_insights true store = Some (decisions_summary, constraints_summary)
    /\ Spec.occurs (Decision.title d) decisions_summary.
Proof.
  intros Hd. unfold render_ai_insights. cbn [negb].
  pose proof (summarised_nonempty _ _ Hd) as Hne.
  destruct (decision_lines_in_summary _ _ Hd) as [i Hi].
  assert (Hline : Spec.occurs (decision_title_line i d)
                    (_get_decisions_summary (get_all_decisions store None))).
  { apply summary_line_occurs; [exact Hne|]. apply Hi. now left. }
  destruct (get_all_decisions store None) as [|d0 rest] eqn:E;
    [contradiction|].
  eexists; eexists. split; [reflexivity|].
  destruct Hline as (pre & post & Hs).
  exists (pre ++ nl ++ "Decision " ++ str_of_nat i ++ ": "), post.
  rewrite Hs. unfold decision_title_line. now rewrite !append_assoc.
Qed.

(** C1 (code at the failing input): two stores with the same SHAREABLE
    decisions, one of which also holds a PRIVATE decision, get different
    AI contexts; the title of the PRIVATE decision and its constraint
    pattern are in the text handed to the chat service. *)
Theorem private_decision_reaches_ai_context :
  get_all_decisions Sample.store_with_secret (Some SHAREABLE)
  = get_all_decisions Sample.store_without_secret (Some SHAREABLE)
  /\ Decision.memory_layer Sample.secret_plan = PRIVATE
  /\ render_ai_insights true Sample.store_with_secret
     <> render_ai_insights true Sample.store_without_secret
  /\ (exists decisions_summary constraints_summary,
        render_ai_insights true Sample.store_with_secret
        = Some (decisions_summary, constraints_summary)
        /\ contains (Decision.title Sample.secret_plan) decisions_summary = true
        /\ contains (constraint_key Sample.cost_low) constraints_summary = true).
Proof.
  split; [reflexivity|].
  split; [reflexivity|].
  split; [vm_compute; discriminate|].
  eexists; eexists.
  split; [vm_compute; reflexivity|].
  split; vm_compute; reflexivity.
Qed.

(** ** The failure check on the returned reflection *)

(** C5: the page shows the returned text as an error exactly when the
    text contains "failed" in some mix of cases, and as an insight (with
    the button that appends it to the reflection) exactly when it does
    not. *)
Theorem failure_signal_iff_contains_failed (ai_reflection : string) :
  (show_ai_reflection ai_reflection = Error ai_reflection
   <-> Spec.contains_failed_ignoring_case ai_reflection)
  /\ (show_ai_reflection ai_reflection = Insight ai_reflection
      <-> ~ Spec.contains_failed_ignoring_case ai_reflection).
Proof.
  assert (Hiff : contains "failed" (lower ai_reflection) = true
                 <-> Spec.contains_failed_ignoring_case ai_reflection).
  { split.
    - apply contains_lower_split.
    - intros (pre & mid & post & -> & Hmid).
      apply contains_occurs.
      exists (lower pre), (lower post).
      now rewrite !lower_append, Hmid. }
  unfold show_ai_reflection.
  destruct (contains "failed" (lower ai_reflection)) eqn:E; simpl.
  - assert (Hc : Spec.contains_failed_ignoring_case ai_reflection)
      by now apply Hiff.
    split; split.
    + now intros _.
    + reflexivity.
    + discriminate.
    + intros Hn. now destruct Hn.
  - assert (Hc : ~ Spec.contains_failed_ignoring_case ai_reflection).
    { intros H. apply Hiff in H. discriminate. }
    split; split.
    + discriminate.
    + intros H. now destruct Hc.
    + now intros _.
    + reflexivity.
Qed.

(** ** The reflection service *)

Section Reflect.

Variable G : Genai.

(** Whatever the service does, [reflect] lets no [Exception] through. *)
Lemma reflect_raises_only_non_errors (self : GeminiReflectionAI)
    (decision_history_text : string) (e : exn) :
  reflect G self decision_history_text = Raises e ->
  exn_class e = BaseExceptionOnly.
Proof.
  unfold reflect.
  destruct (negb (enabled self) || negb (truthy (api_key self)));
    [discriminate|].
  unfold try_except_Exception.
  destruct (call_model G decision_history_text) as [s|e0]; [discriminate|].
  destruct (exn_class e0) eqn:E; [discriminate|].
  intros [= <-]. exact E.
Qed.


End Reflect.



(** C10: constructed with [enabled=False], or with no key in the
    environment (unset or empty), the service answers every text with
    "Reflection AI disabled or API key missing."; that text has no
    "failed" in it, so the page shows it as an insight, not as an error. *)
Theorem reflect_disabled_shown_as_insight (G : Genai) (enabled : bool)
    (getenv : Datatypes.option string) (decision_history_text : string) :
  enabled = false \/ getenv = None \/ getenv = Some "" ->
  reflect G (GeminiReflectionAI_init enabled getenv) decision_history_text
  = Returns "Reflection AI disabled or API key missing."
  /\ contains "failed" (lower "Reflection AI disabled or API key missing.") = false
  /\ show_ai_reflection "Reflection AI disabled or API key missing."
     = Insight "Reflection AI disabled or API key missing."
  /\ bind (reflect G (GeminiReflectionAI_init enabled getenv) decision_history_text)
          (fun ai_reflection => Returns (show_ai_reflection ai_reflection))
     = Returns (Insight "Reflection AI disabled or API key missing.").
Proof.
  intros H.
  assert (Hr : reflect G (GeminiReflectionAI_init enabled getenv)
                 decision_history_text
               = Returns "Reflection AI disabled or API key missing.").
  { unfold reflect, GeminiReflectionAI_init; simpl.
    destruct H as [->|[->| ->]]; [reflexivity| |];
      destruct enabled; reflexivity. }
  split; [exact Hr|].
  split; [reflexivity|].
  split; [reflexivity|].
  rewrite Hr. reflexivity.
Qed.

Lemma reflect_disabled_shown_as_insight_witness :
  (true = false \/ @None string = None \/ @None string = Some "")
  /\ get_gemini_reflection Sample.echo_genai None Sample.unconstrained "draft"
     = Returns (Insight "Reflection AI disabled or API key missing.").
Proof.
  split; [right; left; reflexivity|].
  apply (reflect_disabled_shown_as_insight Sample.echo_genai true None
           (decision_history_text Sample.unconstrained "draft")).
  right; left; reflexivity.
Defined.

(** ** The text block sent to the reflection service *)

Section HistoryText.

Lemma labelled_in_parts (l1 : list string) (label value : string)
    (l2 : list string) :
  Spec.labelled label value (join "" (l1 ++ label :: value :: l2)%list).
Proof.
  exists (join "" l1), (join "" l2).
  now rewrite join_empty_app, !join_empty_cons.
Qed.

Lemma occurs_in_labelled (x label value text : string) :
  Spec.occurs x value -> Spec.labelled label value text -> Spec.occurs x text.
Proof.
  intros (a & b & ->) (pre & post & ->).
  exists (pre ++ label ++ a), (b ++ post).
  now rewrite !append_assoc.
Qed.

End HistoryText.

(** The [k]-th and [k+1]-th parts of the text are a label and its value. *)
Ltac labelled_at k d r :=
  exact (labelled_in_parts (firstn k (decision_history_parts d r)) _ _
           (skipn (k + 2) (decision_history_parts d r))).

(** C9: the text block is built from one decision and the draft
    reflection alone, and holds, each directly after its label, the
    title, goal, description, final choice, reasoning, expected outcome,
    the constraint descriptions joined by ", ", the alternative options
    joined by ", ", and the draft reflection; every constraint
    description and every alternative option occurs in it. *)
Theorem decision_history_text_labels (decision : Decision.t)
    (new_reflection : string) :
  let t := decision_history_text decision new_reflection in
  Spec.labelled "Decision: " (Decision.title decision) t
  /\ Spec.labelled "Goal: " (Decision.goal decision) t
  /\ Spec.labelled "Description: " (Decision.description decision) t
  /\ Spec.labelled "Final Choice: " (Decision.final_choice decision) t
  /\ Spec.labelled "Reasoning: " (Decision.reasoning decision) t
  /\ Spec.labelled "Expected Outcome: "
       (str_of_option (Decision.expected_outcome decision)) t
  /\ Spec.labelled "Constraints: "
       (join ", " (map Constraint.description (Decision.constraints decision))) t
  /\ Spec.labelled "Alternatives Considered: "
       (join ", " (map Alternative.option (Decision.alternatives decision))) t
  /\ Spec.labelled "Reflection: " new_reflection t
  /\ (forall c, In c (Decision.constraints decision) ->
        Spec.occurs (Constraint.description c) t)
  /\ (forall a, In a (Decision.alternatives decision) ->
        Spec.occurs (Alternative.option a) t).
Proof.
  intros t. subst t. unfold decision_history_text.
  assert (Hc : Spec.labelled "Constraints: "
            (join ", " (map Constraint.description (Decision.constraints decision)))
            (join "" (decision_history_parts decision new_reflection)))
    by labelled_at 19 decision new_reflection.
  assert (Ha : Spec.labelled "Alternatives Considered: "
            (join ", " (map Alternative.option (Decision.alternatives decision)))
            (join "" (decision_history_parts decision new_reflection)))
    by labelled_at 22 decision new_reflection.
  split; [labelled_at 1 decision new_reflection|].
  split; [labelled_at 4 decision new_reflection|].
  split; [labelled_at 7 decision new_reflection|].
  split; [labelled_at 10 decision new_reflection|].
  split; [labelled_at 13 decision new_reflection|].
  split; [labelled_at 16 decision new_reflection|].
  split; [exact Hc|].
  split; [exact Ha|].
  split; [labelled_at 25 decision new_reflection|].
  split.
  - intros c Hin.
    apply (occurs_in_labelled _ _ _ _ (join_occurs ", " _ _ (in_map _ _ _ Hin)) Hc).
  - intros a Hin.
    apply (occurs_in_labelled _ _ _ _ (join_occurs ", " _ _ (in_map _ _ _ Hin)) Ha).
Qed.

Lemma decision_history_text_labels_witness :
  In Sample.cost_low (Decision.constraints Sample.june)
  /\ Spec.occurs (Constraint.description Sample.cost_low)
       (decision_history_text Sample.june "draft").
Proof.
  split; [simpl; tauto|].
  apply (decision_history_text_labels Sample.june "draft").
  simpl; tauto.
Defined.

(** ** The constraints summary *)

Section Patterns.

Import Refinement.

Lemma pattern_eqb_eq (p q : Spec.pattern) :
  Spec.pattern_eqb p q = true <-> p = q.
Proof.
  destruct p as [[] []], q as [[] []]; split; intros H;
    solve [reflexivity | discriminate].
Qed.

Lemma pattern_eqb_refl (p : Spec.pattern) : Spec.pattern_eqb p p = true.
Proof. now apply pattern_eqb_eq. Qed.

Lemma pattern_eqb_sym (p q : Spec.pattern) :
  Spec.pattern_eqb p q = Spec.pattern_eqb q p.
Proof.
  destruct (Spec.pattern_eqb p q) eqn:E1, (Spec.pattern_eqb q p) eqn:E2;
    try reflexivity.
  - apply pattern_eqb_eq in E1; subst. now rewrite pattern_eqb_refl in E2.
  - apply pattern_eqb_eq in E2; subst. now rewrite pattern_eqb_refl in E1.
Qed.

(** Two patterns have the same key text exactly when they are equal. *)
Lemma pattern_key_eqb (p q : Spec.pattern) :
  String.eqb (pattern_key (fst p) (snd p)) (pattern_key (fst q) (snd q))
  = Spec.pattern_eqb p q.
Proof.
  destruct p as [[] []], q as [[] []]; reflexivity.
Qed.

Lemma count_constraint_bump (table : list (Spec.pattern * nat))
    (c : Constraint.t) :
  count_constraint (map key_row table) c
  = map key_row (bump (Spec.pattern_of c) table).
Proof.
  unfold count_constraint.
  change (constraint_key c)
    with (pattern_key (fst (Spec.pattern_of c)) (snd (Spec.pattern_of c))).
  generalize (Spec.pattern_of c) as p; intros p.
  induction table as [|[q n] table IH]; [reflexivity|].
  cbn [map key_row fst snd dict_get dict_set bump].
  rewrite (pattern_key_eqb q p).
  destruct (Spec.pattern_eqb q p); [reflexivity|].
  cbn [map key_row fst snd]. now rewrite IH.
Qed.

Lemma first_seen_In (p : Spec.pattern) (ps : list Spec.pattern) :
  In p (Spec.first_seen ps) <-> In p ps.
Proof.
  induction ps as [|q ps IH]; [reflexivity|].
  cbn [Spec.first_seen]. split.
  - intros [->|H]; [now left|].
    apply filter_In in H as [H _]. right. now apply IH.
  - intros [->|H]; [now left|].
    destruct (Spec.pattern_eqb p q) eqn:E.
    + apply pattern_eqb_eq in E. now left.
    + right. apply filter_In. split; [now apply IH | now rewrite E].
Qed.

Lemma first_seen_NoDup (ps : list Spec.pattern) : NoDup (Spec.first_seen ps).
Proof.
  induction ps as [|q ps IH]; [constructor|].
  cbn [Spec.first_seen]. constructor.
  - intros H. apply filter_In in H as [_ H].
    now rewrite pattern_eqb_refl in H.
  - now apply NoDup_filter.
Qed.

Lemma first_seen_snoc (ps : list Spec.pattern) (p : Spec.pattern) :
  Spec.first_seen (ps ++ [p])%list
  = if existsb (Spec.pattern_eqb p) ps then Spec.first_seen ps
    else (Spec.first_seen ps ++ [p])%list.
Proof.
  induction ps as [|q ps IH]; [reflexivity|].
  rewrite <- app_comm_cons. cbn [Spec.first_seen existsb]. rewrite IH.
  destruct (Spec.pattern_eqb p q) eqn:E; cbn [orb].
  - destruct (existsb (Spec.pattern_eqb p) ps); [reflexivity|].
    rewrite filter_app. cbn [filter]. rewrite E. cbn [negb].
    now rewrite app_nil_r.
  - destruct (existsb (Spec.pattern_eqb p) ps); [reflexivity|].
    rewrite filter_app. cbn [filter]. rewrite E. reflexivity.
Qed.

Lemma frequency_snoc (q : Spec.pattern) (cs : list Constraint.t)
    (c : Constraint.t) :
  Spec.frequency q (cs ++ [c])%list
  = Spec.frequency q cs + hit (Spec.pattern_of c) q.
Proof.
  unfold Spec.frequency, hit. rewrite filter_app, length_app.
  cbn [filter]. now destruct (Spec.pattern_eqb (Spec.pattern_of c) q).
Qed.

Lemma frequency_absent (p : Spec.pattern) (cs : list Constraint.t) :
  existsb (Spec.pattern_eqb p) (map Spec.pattern_of cs) = false ->
  Spec.frequency p cs = 0.
Proof.
  unfold Spec.frequency.
  induction cs as [|c cs IH]; [reflexivity|].
  cbn [map existsb filter]. intros H.
  apply orb_false_iff in H as [H1 H2].
  rewrite pattern_eqb_sym, H1. now apply IH.
Qed.

Lemma existsb_pattern_In (p : Spec.pattern) (l : list Spec.pattern) :
  existsb (Spec.pattern_eqb p) l = true <-> In p l.
Proof.
  rewrite existsb_exists. split.
  - intros (q & Hq & E). apply pattern_eqb_eq in E. now subst.
  - intros H. exists p. split; [exact H | apply pattern_eqb_refl].
Qed.

(** Adding the hits of an absent pattern changes no row. *)
Lemma map_hit_absent (f : Spec.pattern -> nat) (p : Spec.pattern)
    (l : list Spec.pattern) :
  ~ In p l ->
  map (fun q => (q, f q + hit p q)) l = map (fun q => (q, f q)) l.
Proof.
  intros Hn. apply map_ext_in. intros q Hq. unfold hit.
  destruct (Spec.pattern_eqb p q) eqn:E.
  - apply pattern_eqb_eq in E. subst. contradiction.
  - now rewrite Nat.add_0_r.
Qed.

(** On rows without duplicates, [bump] adds the hits of [p] to every row,
    or adds a last row when [p] has none. *)
Lemma bump_map (f : Spec.pattern -> nat) (p : Spec.pattern)
    (l : list Spec.pattern) :
  NoDup l ->
  bump p (map (fun q => (q, f q)) l)
  = if existsb (Spec.pattern_eqb p) l
    then map (fun q => (q, f q + hit p q)) l
    else (map (fun q => (q, f q)) l ++ [(p, 1)])%list.
Proof.
  induction l as [|q l IH]; intros Hnd; [reflexivity|].
  inversion Hnd as [|? ? Hq Hl]; subst.
  cbn [map bump existsb]. rewrite (pattern_eqb_sym q p).
  destruct (Spec.pattern_eqb p q) eqn:E; cbn [orb].
  - apply pattern_eqb_eq in E; subst q.
    rewrite (map_hit_absent f p l Hq). unfold hit.
    now rewrite pattern_eqb_refl.
  - rewrite (IH Hl).
    assert (H0 : hit p q = 0) by (unfold hit; now rewrite E).
    rewrite H0, Nat.add_0_r.
    now destruct (existsb (Spec.pattern_eqb p) l).
Qed.

Lemma table_of_snoc (cs : list Constraint.t) (c : Constraint.t) :
  Spec.table_of (cs ++ [c])%list = bump (Spec.pattern_of c) (Spec.table_of cs).
Proof.
  unfold Spec.table_of.
  rewrite (bump_map (fun q => Spec.frequency q cs) _ _ (first_seen_NoDup _)).
  rewrite map_app. cbn [map]. rewrite first_seen_snoc.
  set (p := Spec.pattern_of c). set (ps := map Spec.pattern_of cs).
  assert (Hex : existsb (Spec.pattern_eqb p) (Spec.first_seen ps)
                = existsb (Spec.pattern_eqb p) ps).
  { apply eq_true_iff_eq.
    rewrite !existsb_pattern_In. apply first_seen_In. }
  rewrite Hex.
  destruct (existsb (Spec.pattern_eqb p) ps) eqn:E.
  - apply map_ext. intros q. now rewrite frequency_snoc.
  - rewrite map_app. cbn [map]. f_equal.
    + rewrite <- (map_hit_absent (fun q => Spec.frequency q cs) p).
      * apply map_ext. intros q. now rewrite frequency_snoc.
      * intros H. apply (proj2 (existsb_pattern_In _ _)) in H. congruence.
    + rewrite frequency_snoc, (frequency_absent p cs E). unfold hit.
      now rewrite pattern_eqb_refl.
Qed.

(** The dict built by the two loops is the frequency table, row by row. *)
Lemma count_constraints_table (cs : list Constraint.t) :
  fold_left count_constraint cs [] = map key_row (Spec.table_of cs).
Proof.
  induction cs as [|c cs IH] using rev_ind; [reflexivity|].
  now rewrite fold_left_app, table_of_snoc, <- count_constraint_bump, <- IH.
Qed.

Lemma count_decisions_flat (decisions : list Decision.t) (acc : dict) :
  fold_left count_decision decisions acc
  = fold_left count_constraint (Spec.all_constraints decisions) acc.
Proof.
  revert acc; induction decisions as [|d decisions IH]; intros acc;
    [reflexivity|].
  cbn [fold_left Spec.all_constraints flat_map].
  now rewrite fold_left_app, IH.
Qed.

Lemma constraint_patterns_table (decisions : list Decision.t) :
  constraint_patterns decisions = map key_row (Spec.frequency_table decisions).
Proof.
  unfold constraint_patterns, Spec.frequency_table.
  now rewrite count_decisions_flat, count_constraints_table.
Qed.

Lemma table_of_nonempty (cs : list Constraint.t) :
  cs <> [] -> Spec.table_of cs <> [].
Proof.
  destruct cs as [|c cs]; [contradiction|]. discriminate.
Qed.

Lemma pattern_line_bullet (row : Spec.pattern * nat) :
  pattern_line (key_row row) = Spec.bullet_line row.
Proof.
  destruct row as [[[] []] n]; reflexivity.
Qed.

End Patterns.

(** ** [sorted(..., reverse=True)] *)

Section SortedReverse.

Context {A : Type} (key : A -> nat).

Lemma insert_desc_perm (x : A) (l : list A) :
  Permutation (insert_desc Nat.leb key x l) (x :: l).
Proof.
  induction l as [|y l IH]; [apply Permutation_refl|].
  cbn [insert_desc].
  destruct (key y <=? key x)%nat; [apply Permutation_refl|].
  eapply perm_trans; [apply perm_skip, IH | apply perm_swap].
Qed.

Lemma sorted_reverse_perm (l : list A) :
  Permutation (sorted_reverse Nat.leb key l) l.
Proof.
  induction l as [|x l IH]; [constructor|].
  cbn [sorted_reverse fold_right].
  eapply perm_trans; [apply insert_desc_perm | now apply perm_skip].
Qed.

Lemma insert_desc_sorted (x : A) (l : list A) :
  StronglySorted (fun a b => key b <= key a) l ->
  StronglySorted (fun a b => key b <= key a) (insert_desc Nat.leb key x l).
Proof.
  induction l as [|y l IH]; intros Hs.
  - repeat constructor.
  - cbn [insert_desc].
    inversion Hs as [|? ? Hl Hy]; subst.
    destruct (key y <=? key x)%nat eqn:E.
    + apply Nat.leb_le in E.
      constructor; [exact Hs|].
      constructor; [exact E|].
      eapply Forall_impl; [|exact Hy].
      intros z Hz. cbv beta in Hz. lia.
    + apply Nat.leb_gt in E.
      constructor; [now apply IH|].
      eapply Permutation_Forall;
        [apply Permutation_sym, insert_desc_perm|].
      constructor; [lia | exact Hy].
Qed.

Lemma sorted_reverse_sorted (l : list A) :
  StronglySorted (fun a b => key b <= key a) (sorted_reverse Nat.leb key l).
Proof.
  induction l as [|x l IH]; [constructor|].
  cbn [sorted_reverse fold_right]. now apply insert_desc_sorted.
Qed.

(** Stability: the elements of any one key keep their order. *)
Lemma insert_desc_filter (n : nat) (x : A) (l : list A) :
  filter (fun a => Nat.eqb (key a) n) (insert_desc Nat.leb key x l)
  = filter (fun a => Nat.eqb (key a) n) (x :: l).
Proof.
  induction l as [|y l IH]; [reflexivity|].
  cbn [insert_desc].
  destruct (key y <=? key x)%nat eqn:E; [reflexivity|].
  apply Nat.leb_gt in E.
  cbn [filter] in IH |- *. rewrite IH.
  destruct (Nat.eqb (key x) n) eqn:Ex; [|reflexivity].
  apply Nat.eqb_eq in Ex.
  destruct (Nat.eqb (key y) n) eqn:Ey; [|reflexivity].
  apply Nat.eqb_eq in Ey. lia.
Qed.

Lemma sorted_reverse_stable_filter (n : nat) (l : list A) :
  filter (fun a => Nat.eqb (key a) n) (sorted_reverse Nat.leb key l)
  = filter (fun a => Nat.eqb (key a) n) l.
Proof.
  induction l as [|x l IH]; [reflexivity|].
  cbn [sorted_reverse fold_right]. rewrite insert_desc_filter.
  cbn [filter]. fold (sorted_reverse Nat.leb key l). now rewrite IH.
Qed.

End SortedReverse.

(** Sorting commutes with a renaming of the rows that keeps the counts. *)
Lemma sorted_reverse_map {A B : Type} (f : A -> B) (keyA : A -> nat)
    (keyB : B -> nat) (l : list A) :
  (forall a, keyB (f a) = keyA a) ->
  sorted_reverse Nat.leb keyB (map f l) = map f (sorted_reverse Nat.leb keyA l).
Proof.
  intros Hkey.
  assert (Hins : forall x s,
             insert_desc Nat.leb keyB (f x) (map f s)
             = map f (insert_desc Nat.leb keyA x s)).
  { intros x s. induction s as [|y s IH]; [reflexivity|].
    cbn [map insert_desc]. rewrite !Hkey.
    destruct (keyA y <=? keyA x)%nat; [reflexivity|].
    cbn [map]. now rewrite IH. }
  induction l as [|x l IH]; [reflexivity|].
  cbn [map sorted_reverse fold_right].
  fold (sorted_reverse Nat.leb keyB (map f l)).
  fold (sorted_reverse Nat.leb keyA l).
  now rewrite IH, Hins.
Qed.

(** C7 (counterexample): the empty sequence and a sequence of one
    decision without constraints both hold no constraint, and get two
    different placeholders; so no single text serves all such inputs. *)
Lemma two_placeholders_without_constraints :
  Spec.all_constraints [] = []
  /\ Spec.all_constraints [Sample.unconstrained] = []
  /\ _get_constraints_summary [] <> _get_constraints_summary [Sample.unconstrained]
  /\ ~ (exists placeholder : string,
          forall decisions,
            Spec.all_constraints decisions = [] ->
            _get_constraints_summary decisions = placeholder).
Proof.
  split; [reflexivity|].
  split; [reflexivity|].
  split; [vm_compute; discriminate|].
  intros [placeholder H].
  pose proof (H [] eq_refl) as H1.
  pose proof (H [Sample.unconstrained] eq_refl) as H2.
  rewrite <- H2 in H1. vm_compute in H1. discriminate.
Qed.

(** C7 (as amended): when no constraint exists in any supplied decision,
    [_get_constraints_summary] returns one of two fixed non-empty
    placeholders: "No constraints recorded yet." for the empty sequence,
    "No constraint patterns found." for a non-empty one; the function is
    total, so no error is raised. *)
Theorem constraints_summary_placeholders (decisions : list Decision.t) :
  Spec.all_constraints decisions = [] ->
  _get_constraints_summary decisions
  = (match decisions with
     | [] => "No constraints recorded yet."
     | _ :: _ => "No constraint patterns found."
     end)
  /\ _get_constraints_summary decisions <> "".
Proof.
  intros Hnone.
  assert (Heq : _get_constraints_summary decisions
                = match decisions with
                  | [] => "No constraints recorded yet."
                  | _ :: _ => "No constraint patterns found."
                  end).
  { destruct decisions as [|d rest]; [reflexivity|].
    unfold _get_constraints_summary.
    rewrite constraint_patterns_table.
    unfold Spec.frequency_table. now rewrite Hnone. }
  split; [exact Heq|].
  rewrite Heq. destruct decisions; discriminate.
Qed.

Lemma constraints_summary_placeholders_witness :
  Spec.all_constraints [Sample.unconstrained; Sample.april] = []
  /\ _get_constraints_summary [Sample.unconstrained; Sample.april]
     = "No constraint patterns found.".
Proof.
  split; [reflexivity|].
  apply (constraints_summary_placeholders [Sample.unconstrained; Sample.april]).
  reflexivity.
Defined.

(** C4: when some supplied decision has a constraint, the summary is the
    heading followed by one bullet line "category (Severity: severity):
    appears N times" for each of the first five rows of a ranking of the
    frequency table keyed by (category, severity) over all constraints of
    all supplied decisions; the ranking has the rows of the table, in
    descending order of frequency, rows of equal frequency in their
    first-encountered order. *)
Theorem constraints_summary_ranks_patterns (decisions : list Decision.t) :
  Spec.all_constraints decisions <> [] ->
  exists ranked : list (Spec.pattern * nat),
    Permutation ranked (Spec.frequency_table decisions)
    /\ Spec.descending ranked
    /\ Spec.ties_in_table_order (Spec.frequency_table decisions) ranked
    /\ _get_constraints_summary decisions
       = join nl ("Your most common constraints:"
                    :: map Spec.bullet_line (firstn 5 ranked)).
Proof.
  intros Hsome.
  exists (sorted_reverse Nat.leb snd (Spec.frequency_table decisions)).
  split; [apply sorted_reverse_perm|].
  split; [apply sorted_reverse_sorted|].
  split; [intros n; apply sorted_reverse_stable_filter|].
  destruct decisions as [|d rest]; [now destruct Hsome|].
  unfold _get_constraints_summary, top_patterns.
  rewrite constraint_patterns_table.
  pose proof (table_of_nonempty _ Hsome) as Hne.
  fold (Spec.frequency_table (d :: rest)) in Hne.
  destruct (Spec.frequency_table (d :: rest)) as [|row table] eqn:E;
    [now destruct Hne|].
  rewrite <- E.
  destruct (map Refinement.key_row (Spec.frequency_table (d :: rest)))
    as [|item items] eqn:Em.
  { rewrite E in Em. discriminate. }
  rewrite <- Em.
  rewrite (sorted_reverse_map Refinement.key_row snd snd) by reflexivity.
  rewrite firstn_map, map_map.
  f_equal. f_equal.
  apply map_ext. intros r. apply pattern_line_bullet.
Qed.

Lemma constraints_summary_ranks_patterns_witness :
  Spec.all_constraints Sample.six <> []
  /\ exists ranked : list (Spec.pattern * nat),
       Permutation ranked (Spec.frequency_table Sample.six)
       /\ Spec.descending ranked
       /\ Spec.ties_in_table_order (Spec.frequency_table Sample.six) ranked
       /\ _get_constraints_summary Sample.six
          = join nl ("Your most common constraints:"
                       :: map Spec.bullet_line (firstn 5 ranked)).
Proof.
  split; [discriminate|].
  apply (constraints_summary_ranks_patterns Sample.six).
  discriminate.
Defined.

(** ** The summaries on the sample data *)

Example six_constraints_summary :
  _get_constraints_summary Sample.six
  = "Your most common constraints:" ++ nl
    ++ "• Cost (Severity: Low): appears 3 times" ++ nl
    ++ "• Time (Severity: High): appears 2 times" ++ nl
    ++ "• Risk (Severity: Medium): appears 1 times".
Proof. reflexivity. Qed.

Example one_decision_summary :
  _get_decisions_summary [Sample.unconstrained]
  = "Total decisions: 1" ++ nl ++ nl ++ nl
    ++ "Decision 1: Rest" ++ nl
    ++ "Goal: Goal of Rest" ++ nl
    ++ "Choice: Choice of Rest" ++ nl
    ++ "Reasoning: short...".
Proof. reflexivity. Qed.

Example echo_reflection_is_insight :
  get_gemini_reflection Sample.echo_genai (Some "key") Sample.unconstrained ""
  = Returns (Insight (decision_history_text Sample.unconstrained "")).
Proof. reflexivity. Qed.

Example failing_reflection_is_error :
  get_gemini_reflection Sample.failing_genai (Some "key") Sample.unconstrained ""
  = Returns (Error "Reflection AI failed: deadline exceeded").
Proof. reflexivity. Qed.

(** * Further properties of the code *)

(** ** More on the decisions summary *)

Section DecisionsSummaryMore.

Lemma enumerate_nth {A : Type} (l : list A) (start i : nat) (x : A) :
  nth_error l i = Some x -> In (start + i, x) (enumerate start l).
Proof.
  revert start i; induction l as [|y l IH]; intros start [|i] H;
    try discriminate.
  - injection H as ->. rewrite Nat.add_0_r. now left.
  - right. replace (start + S i) with (S start + i) by lia. now apply IH.
Qed.

Lemma Forall2_skipn {A B : Type} (R : A -> B -> Prop) (n : nat)
    (l : list A) (l' : list B) :
  Forall2 R l l' -> Forall2 R (skipn n l) (skipn n l').
Proof.
  intros H. revert n. induction H as [|a b l l' Hab H IH]; intros [|n];
    cbn [skipn]; try constructor; auto.
Qed.

Lemma decision_lines_same (i : nat) (a b : Decision.t) :
  Reads.same_summary_fields a b -> decision_lines (i, a) = decision_lines (i, b).
Proof.
  intros (Ht & Hg & Hc & Hr).
  unfold decision_lines, decision_title_line, decision_goal_line,
    decision_choice_line, decision_reasoning_line.
  now rewrite Ht, Hg, Hc, Hr.
Qed.

Lemma entries_same (l l' : list Decision.t) (start : nat) :
  Forall2 Reads.same_summary_fields l l' ->
  flat_map decision_lines (enumerate start l)
  = flat_map decision_lines (enumerate start l').
Proof.
  intros H. revert start.
  induction H as [|a b l l' Hab H IH]; intros start; [reflexivity|].
  cbn [enumerate flat_map].
  now rewrite (decision_lines_same start a b Hab), IH.
Qed.

End DecisionsSummaryMore.



(** X2: the [i]-th of the summarised decisions (counting from 0) appears
    under the number [i+1], with its title, its goal and its final choice
    each on a line of the text. *)
Theorem summarised_decision_is_numbered (decisions : list Decision.t)
    (i : nat) (d : Decision.t) :
  nth_error (summarised decisions) i = Some d ->
  Spec.occurs (nl ++ "Decision " ++ str_of_nat (S i) ++ ": " ++ Decision.title d)
    (_get_decisions_summary decisions)
  /\ Spec.occurs ("Goal: " ++ Decision.goal d) (_get_decisions_summary decisions)
  /\ Spec.occurs ("Choice: " ++ Decision.final_choice d)
       (_get_decisions_summary decisions).
Proof.
  intros Hnth.
  assert (Hne : decisions <> []).
  { intros ->. destruct i; discriminate. }
  assert (Hin : incl (decision_lines (S i, d)) (decisions_summary_lines decisions)).
  { intros line Hline. right. apply in_flat_map.
    exists (S i, d). split; [|exact Hline].
    apply (enumerate_nth _ 1 i d Hnth). }
  repeat split; apply summary_line_occurs; try exact Hne; apply Hin;
    cbn [decision_lines In]; tauto.
Qed.

Lemma summarised_decision_is_numbered_witness :
  nth_error (summarised Sample.six) 0 = Some Sample.may
  /\ Spec.occurs (nl ++ "Decision 1: May") (_get_decisions_summary Sample.six).
Proof.
  split; [reflexivity|].
  apply (summarised_decision_is_numbered Sample.six 0 Sample.may). reflexivity.
Defined.

(** X3: with at most five decisions nothing is left out: every decision
    supplied is summarised, in the order supplied. *)
Theorem few_decisions_all_summarised (decisions : list Decision.t) :
  List.length decisions <= 5 ->
  summarised decisions = decisions
  /\ forall d, In d decisions ->
       Spec.occurs (Decision.title d) (_get_decisions_summary decisions).
Proof.
  intros Hle.
  assert (Hall : summarised decisions = decisions).
  { unfold summarised, last_n.
    replace (List.length decisions - 5) with 0 by lia. reflexivity. }
  split; [exact Hall|].
  intros d Hd.
  destruct (In_nth_error _ _ Hd) as [i Hi].
  rewrite <- Hall in Hi.
  destruct (summarised_decision_is_numbered _ _ _ Hi) as [(pre & post & E) _].
  exists (pre ++ nl ++ "Decision " ++ str_of_nat (S i) ++ ": "), post.
  rewrite E. now rewrite !append_assoc.
Qed.

Lemma few_decisions_all_summarised_witness :
  List.length [Sample.public_plan; Sample.secret_plan] <= 5
  /\ summarised [Sample.public_plan; Sample.secret_plan]
     = [Sample.public_plan; Sample.secret_plan].
Proof.
  split; [simpl; lia|].
  apply (few_decisions_all_summarised [Sample.public_plan; Sample.secret_plan]).
  simpl; lia.
Defined.

(** X4: the summary reads only the title, the goal, the final choice and
    the first 200 characters of the reasoning of each decision: two
    sequences that agree on these, position by position, get the same
    text, whatever their layers, constraints, dates or the rest of the
    reasoning. *)
Theorem decisions_summary_reads_four_fields (decisions decisions' : list Decision.t) :
  Forall2 Reads.same_summary_fields decisions decisions' ->
  _get_decisions_summary decisions = _get_decisions_summary decisions'.
Proof.
  intros H.
  pose proof (Forall2_length H) as Hlen.
  destruct H as [|a b l l' Hab H]; [reflexivity|].
  unfold _get_decisions_summary, decisions_summary_lines, summarised, last_n.
  rewrite Hlen. f_equal. f_equal.
  apply entries_same. rewrite <- Hlen.
  apply Forall2_skipn. now constructor.
Qed.

Lemma decisions_summary_reads_four_fields_witness :
  Forall2 Reads.same_summary_fields [Sample2.long_a] [Sample2.long_b]
  /\ Decision.reasoning Sample2.long_a <> Decision.reasoning Sample2.long_b
  /\ _get_decisions_summary [Sample2.long_a] = _get_decisions_summary [Sample2.long_b].
Proof.
  assert (H : Forall2 Reads.same_summary_fields [Sample2.long_a] [Sample2.long_b]).
  { constructor; [|constructor]. repeat split. }
  split; [exact H|].
  split; [vm_compute; discriminate|].
  apply (decisions_summary_reads_four_fields [Sample2.long_a] [Sample2.long_b] H).
Defined.

(** ** More on the constraints summary *)

Section PatternsMore.

Lemma list_sum_step (n : nat) (l : list nat) :
  list_sum (n :: l) = n + list_sum l.
Proof. reflexivity. Qed.

(** One pass of the loop body adds one to the total of the counts. *)
Lemma count_constraint_sum (patterns : dict) (c : Constraint.t) :
  list_sum (map snd (count_constraint patterns c))
  = list_sum (map snd patterns) + 1.
Proof.
  unfold count_constraint. generalize (constraint_key c) as k; intros k.
  induction patterns as [|[k' v] patterns IH]; [reflexivity|].
  cbn [dict_get dict_set].
  destruct (String.eqb k' k).
  - cbn [map snd]. rewrite !list_sum_step. lia.
  - cbn [map snd]. rewrite !list_sum_step, IH. lia.
Qed.

Lemma count_constraints_sum (cs : list Constraint.t) (acc : dict) :
  list_sum (map snd (fold_left count_constraint cs acc))
  = list_sum (map snd acc) + List.length cs.
Proof.
  revert acc; induction cs as [|c cs IH]; intros acc; cbn [fold_left List.length].
  - lia.
  - rewrite IH, count_constraint_sum. lia.
Qed.

Lemma all_constraints_length (decisions : list Decision.t) :
  List.length (Spec.all_constraints decisions) = total_constraints decisions.
Proof.
  unfold Spec.all_constraints, total_constraints.
  induction decisions as [|d decisions IH]; [reflexivity|].
  cbn [flat_map map]. now rewrite list_sum_step, length_app, IH.
Qed.

(** The keys after one pass of the loop body. *)
Lemma count_constraint_keys (patterns : dict) (c : Constraint.t) :
  map fst (count_constraint patterns c)
  = if existsb (String.eqb (constraint_key c)) (map fst patterns)
    then map fst patterns
    else (map fst patterns ++ [constraint_key c])%list.
Proof.
  unfold count_constraint. generalize (constraint_key c) as k; intros k.
  generalize (dict_get patterns k 0 + 1) as v; intros v.
  induction patterns as [|[k' v'] patterns IH]; [reflexivity|].
  cbn [dict_set map fst existsb]. rewrite (String.eqb_sym k k').
  destruct (String.eqb k' k); cbn [orb map fst]; [reflexivity|].
  rewrite IH. now destruct (existsb (String.eqb k) (map fst patterns)).
Qed.

Lemma count_constraint_NoDup (patterns : dict) (c : Constraint.t) :
  NoDup (map fst patterns) -> NoDup (map fst (count_constraint patterns c)).
Proof.
  intros Hnd. rewrite count_constraint_keys.
  destruct (existsb (String.eqb (constraint_key c)) (map fst patterns)) eqn:E;
    [exact Hnd|].
  apply NoDup_app; [exact Hnd | repeat constructor; intros [] |].
  intros k Hk [Hkc|[]].
  assert (Ht : existsb (String.eqb (constraint_key c)) (map fst patterns) = true).
  { apply existsb_exists. exists k.
    split; [exact Hk | rewrite Hkc; apply String.eqb_refl]. }
  congruence.
Qed.

Lemma count_constraint_positive (patterns : dict) (c : Constraint.t) :
  Forall (fun item => 1 <= snd item) patterns ->
  Forall (fun item => 1 <= snd item) (count_constraint patterns c).
Proof.
  unfold count_constraint. generalize (constraint_key c) as k; intros k.
  assert (Hv : 1 <= dict_get patterns k 0 + 1) by lia.
  revert Hv. generalize (dict_get patterns k 0 + 1) as v. intros v Hv H.
  induction H as [|[k' v'] patterns Hk H IH]; cbn [dict_set].
  - now repeat constructor.
  - destruct (String.eqb k' k); constructor; auto.
Qed.

Lemma count_constraints_invariant (cs : list Constraint.t) (acc : dict) :
  NoDup (map fst acc) /\ Forall (fun item => 1 <= snd item) acc ->
  NoDup (map fst (fold_left count_constraint cs acc))
  /\ Forall (fun item => 1 <= snd item) (fold_left count_constraint cs acc).
Proof.
  revert acc; induction cs as [|c cs IH]; intros acc [Hnd Hpos];
    cbn [fold_left]; [now split|].
  apply IH. split;
    [now apply count_constraint_NoDup | now apply count_constraint_positive].
Qed.

(** The loops read the constraints through their keys only. *)
Lemma count_constraints_by_key (cs cs' : list Constraint.t) (acc : dict) :
  map Spec.pattern_of cs = map Spec.pattern_of cs' ->
  fold_left count_constraint cs acc = fold_left count_constraint cs' acc.
Proof.
  revert cs' acc; induction cs as [|c cs IH]; intros [|c' cs'] acc H;
    try discriminate; [reflexivity|].
  cbn [map] in H. unfold Spec.pattern_of in H at 1 3.
  injection H as Hcat Hsev Hcs.
  cbn [fold_left].
  assert (Hk : count_constraint acc c = count_constraint acc c').
  { unfold count_constraint, constraint_key. now rewrite Hcat, Hsev. }
  rewrite Hk. now apply IH.
Qed.

Lemma all_constraints_patterns (decisions : list Decision.t) :
  map Spec.pattern_of (Spec.all_constraints decisions)
  = concat (Reads.patterns_of decisions).
Proof.
  unfold Spec.all_constraints, Reads.patterns_of.
  induction decisions as [|d decisions IH]; [reflexivity|].
  cbn [flat_map map concat]. now rewrite map_app, IH.
Qed.

(** The head of a descending list is at least every element. *)
Lemma descending_head {A : Type} (key : A -> nat) (x : A) (l : list A) :
  StronglySorted (fun a b => key b <= key a) (x :: l) ->
  forall y, In y (x :: l) -> key y <= key x.
Proof.
  intros Hs y [->|Hy]; [lia|].
  inversion Hs as [|? ? _ Hall]; subst.
  rewrite Forall_forall in Hall. now apply Hall.
Qed.

End PatternsMore.

(** X5: the counts of the pattern dict add up to the number of
    constraints of all the decisions, the number that render_analytics
    and render_ai_insights average. *)
Theorem pattern_counts_add_up (decisions : list Decision.t) :
  list_sum (map snd (constraint_patterns decisions)) = total_constraints decisions.
Proof.
  unfold constraint_patterns.
  rewrite count_decisions_flat, count_constraints_sum, all_constraints_length.
  reflexivity.
Qed.

(** X6: in the pattern dict every key occurs once and every count is at
    least 1: no pattern is listed twice and none is listed with zero. *)
Theorem pattern_dict_well_formed (decisions : list Decision.t) :
  NoDup (map fst (constraint_patterns decisions))
  /\ Forall (fun item => 1 <= snd item) (constraint_patterns decisions).
Proof.
  unfold constraint_patterns. rewrite count_decisions_flat.
  apply count_constraints_invariant. split; constructor.
Qed.

(** X7: the constraints summary reads only the category and the severity
    of each constraint: two sequences of decisions whose constraints have
    the same (category, severity) pairs, decision by decision, get the
    same text, whatever the descriptions, titles or layers. *)
Theorem constraints_summary_reads_patterns (decisions decisions' : list Decision.t) :
  Reads.patterns_of decisions = Reads.patterns_of decisions' ->
  _get_constraints_summary decisions = _get_constraints_summary decisions'.
Proof.
  intros H.
  assert (Hp : constraint_patterns decisions = constraint_patterns decisions').
  { unfold constraint_patterns. rewrite !count_decisions_flat.
    apply count_constraints_by_key.
    now rewrite !all_constraints_patterns, H. }
  unfold _get_constraints_summary. rewrite Hp.
  destruct decisions, decisions'; try discriminate; reflexivity.
Qed.

Lemma constraints_summary_reads_patterns_witness :
  Reads.patterns_of [Sample.june] = Reads.patterns_of
    [Sample.decision "Other" "r" "2024-01-01T00:00:00" PRIVATE
       [Sample2.time_high'; Sample2.cost_low']]
  /\ _get_constraints_summary [Sample.june]
     = _get_constraints_summary
         [Sample.decision "Other" "r" "2024-01-01T00:00:00" PRIVATE
            [Sample2.time_high'; Sample2.cost_low']].
Proof.
  split; [reflexivity|].
  apply (constraints_summary_reads_patterns [Sample.june]
           [Sample.decision "Other" "r" "2024-01-01T00:00:00" PRIVATE
              [Sample2.time_high'; Sample2.cost_low']]).
  reflexivity.
Defined.

(** X8: the summary lists at most five patterns, all of them when there
    are at most five, and the one listed first has the largest count of
    the whole dict. *)
Theorem top_patterns_bounded_and_maximal (decisions : list Decision.t) :
  List.length (top_patterns (constraint_patterns decisions))
  = Nat.min 5 (List.length (constraint_patterns decisions))
  /\ forall top item,
       hd_error (top_patterns (constraint_patterns decisions)) = Some top ->
       In item (constraint_patterns decisions) ->
       snd item <= snd top.
Proof.
  unfold top_patterns.
  set (patterns := constraint_patterns decisions).
  pose proof (sorted_reverse_perm snd patterns) as Hperm.
  pose proof (sorted_reverse_sorted snd patterns) as Hsorted.
  split.
  - rewrite length_firstn, (Permutation_length Hperm). reflexivity.
  - intros top item Htop Hitem.
    destruct (sorted_reverse Nat.leb snd patterns) as [|x l] eqn:E;
      [discriminate|].
    cbn [firstn hd_error] in Htop. injection Htop as <-.
    apply (descending_head snd x l Hsorted).
    apply (Permutation_in _ (Permutation_sym Hperm)), Hitem.
Qed.

Lemma top_patterns_bounded_and_maximal_witness :
  hd_error (top_patterns (constraint_patterns Sample.six))
  = Some ("Cost (Severity: Low)", 3)
  /\ In ("Time (Severity: High)", 2) (constraint_patterns Sample.six)
  /\ 2 <= 3.
Proof.
  split; [reflexivity|].
  split; [simpl; tauto|].
  apply (proj2 (top_patterns_bounded_and_maximal Sample.six)
           ("Cost (Severity: Low)", 3) ("Time (Severity: High)", 2)).
  - reflexivity.
  - simpl; tauto.
Defined.

(** ** More on the reflection service and its caller *)

Section ReflectMore.

Lemma init_key_truthy (getenv : Datatypes.option string) :
  truthy (api_key (GeminiReflectionAI_init true getenv)) = truthy getenv.
Proof.
  unfold GeminiReflectionAI_init; cbn [api_key].
  now destruct (truthy getenv) eqn:E.
Qed.

Lemma reflect_with_key (G : Genai) (getenv : Datatypes.option string)
    (txt : string) :
  truthy getenv = true ->
  reflect G (GeminiReflectionAI_init true getenv) txt
  = try_except_Exception (call_model G txt)
      (fun e => Returns (failure_prefix ++ exn_str e)).
Proof.
  intros Hkey. unfold reflect.
  rewrite init_key_truthy, Hkey. reflexivity.
Qed.

(** Every failure text of [reflect] holds the word the caller looks for. *)
Lemma failure_text_contains_failed (message : string) :
  contains "failed" (lower (failure_prefix ++ message)) = true.
Proof.
  apply contains_occurs.
  exists "reflection ai ", (": " ++ lower message).
  rewrite lower_append. reflexivity.
Qed.

End ReflectMore.

(** X9: [reflect] lets no error through: whatever the service does, an
    object that [reflect] raises is not an instance of [Exception]. *)
Theorem reflect_raises_no_error (G : Genai) (self : GeminiReflectionAI)
    (decision_history_text : string) (e : exn) :
  reflect G self decision_history_text = Raises e ->
  exn_class e = BaseExceptionOnly.
Proof.
  apply reflect_raises_only_non_errors.
Qed.

Lemma reflect_raises_no_error_witness :
  reflect Sample2.interrupted_genai (GeminiReflectionAI_init true (Some "key")) "text"
  = Raises Sample2.keyboard_interrupt
  /\ exn_class Sample2.keyboard_interrupt = BaseExceptionOnly.
Proof.
  split; [reflexivity|].
  apply (reflect_raises_no_error Sample2.interrupted_genai
           (GeminiReflectionAI_init true (Some "key")) "text"
           Sample2.keyboard_interrupt).
  reflexivity.
Defined.

(** X10: the two files fit together on failures: with a key present,
    when the model call raises an error the page shows the failure text
    "Reflection AI failed: ..." as an error, whatever the error's
    message is, and never as an insight. *)
Theorem model_error_is_shown_as_error (G : Genai)
    (getenv : Datatypes.option string) (decision : Decision.t)
    (new_reflection : string) (e : exn) :
  truthy getenv = true ->
  exn_class e = ExceptionClass ->
  call_model G (decision_history_text decision new_reflection) = Raises e ->
  get_gemini_reflection G getenv decision new_reflection
  = Returns (Error ("Reflection AI failed: " ++ exn_str e)).
Proof.
  intros Hkey Hclass Hcall. unfold get_gemini_reflection.
  rewrite (reflect_with_key G getenv _ Hkey), Hcall.
  unfold try_except_Exception. rewrite Hclass. cbn [bind].
  unfold show_ai_reflection.
  now rewrite (failure_text_contains_failed (exn_str e)).
Qed.

Lemma model_error_is_shown_as_error_witness :
  truthy (Some "key") = true
  /\ exn_class Sample.timeout_error = ExceptionClass
  /\ get_gemini_reflection Sample.failing_genai (Some "key") Sample.june "draft"
     = Returns (Error "Reflection AI failed: deadline exceeded").
Proof.
  split; [reflexivity|].
  split; [reflexivity|].
  apply (model_error_is_shown_as_error Sample.failing_genai (Some "key")
           Sample.june "draft" Sample.timeout_error); reflexivity.
Defined.

(** X11: with a key present, the text the model returns reaches the page
    unchanged; it is shown as an insight when it has no "failed" in it,
    and as an error when it has, although the call succeeded. *)
Theorem model_answer_is_shown_by_its_wording (G : Genai)
    (getenv : Datatypes.option string) (decision : Decision.t)
    (new_reflection answer : string) :
  truthy getenv = true ->
  call_model G (decision_history_text decision new_reflection) = Returns answer ->
  reflect G (GeminiReflectionAI_init true getenv)
    (decision_history_text decision new_reflection) = Returns answer
  /\ get_gemini_reflection G getenv decision new_reflection
     = Returns (if contains "failed" (lower answer)
                then Error answer else Insight answer).
Proof.
  intros Hkey Hcall.
  assert (Hr : reflect G (GeminiReflectionAI_init true getenv)
                 (decision_history_text decision new_reflection)
               = Returns answer).
  { rewrite (reflect_with_key G getenv _ Hkey), Hcall. reflexivity. }
  split; [exact Hr|].
  unfold get_gemini_reflection. rewrite Hr. cbn [bind].
  unfold show_ai_reflection.
  now destruct (contains "failed" (lower answer)).
Qed.

Lemma model_answer_is_shown_by_its_wording_witness :
  truthy (Some "key") = true
  /\ call_model Sample2.candid_genai (decision_history_text Sample.june "")
     = Returns "The first attempt FAILED, the second one worked."
  /\ get_gemini_reflection Sample2.candid_genai (Some "key") Sample.june ""
     = Returns (Error "The first attempt FAILED, the second one worked.").
Proof.
  split; [reflexivity|].
  split; [reflexivity|].
  apply (model_answer_is_shown_by_its_wording Sample2.candid_genai (Some "key")
           Sample.june "" "The first attempt FAILED, the second one worked.");
    reflexivity.
Defined.

(** X12: what is not an error is not caught: with a key present, when
    the model call raises an object that is not an instance of
    [Exception], the button handler raises it and shows neither an
    insight nor an error. *)
Theorem interrupt_passes_through (G : Genai)
    (getenv : Datatypes.option string) (decision : Decision.t)
    (new_reflection : string) (e : exn) :
  truthy getenv = true ->
  exn_class e = BaseExceptionOnly ->
  call_model G (decision_history_text decision new_reflection) = Raises e ->
  get_gemini_reflection G getenv decision new_reflection = Raises e.
Proof.
  intros Hkey Hclass Hcall. unfold get_gemini_reflection.
  rewrite (reflect_with_key G getenv _ Hkey), Hcall.
  unfold try_except_Exception. now rewrite Hclass.
Qed.

Lemma interrupt_passes_through_witness :
  truthy (Some "key") = true
  /\ exn_class Sample2.keyboard_interrupt = BaseExceptionOnly
  /\ get_gemini_reflection Sample2.interrupted_genai (Some "key") Sample.june ""
     = Raises Sample2.keyboard_interrupt.
Proof.
  split; [reflexivity|].
  split; [reflexivity|].
  apply (interrupt_passes_through Sample2.interrupted_genai (Some "key")
           Sample.june "" Sample2.keyboard_interrupt); reflexivity.
Defined.

(** X13: adding the AI insight keeps the draft: the updated reflection
    starts with the draft reflection and holds the AI text after the
    label "**AI Insight**: ", and only a text without "failed" can be
    added, since the button is under the insight branch. *)
Theorem updated_reflection_keeps_draft (new_reflection ai_reflection : string) :
  show_ai_reflection ai_reflection = Insight ai_reflection ->
  startswith new_reflection (updated_reflection new_reflection ai_reflection) = true
  /\ Spec.labelled "**AI Insight**: " ai_reflection
       (updated_reflection new_reflection ai_reflection)
  /\ contains "failed" (lower ai_reflection) = false
  /\ String.length (updated_reflection new_reflection ai_reflection)
     = String.length new_reflection + 18 + String.length ai_reflection.
Proof.
  intros Hshow.
  split; [apply startswith_append|].
  split.
  - exists (new_reflection ++ nl ++ nl), "".
    unfold updated_reflection. now rewrite !append_assoc, append_empty_r.
  - split.
    + unfold show_ai_reflection in Hshow.
      destruct (contains "failed" (lower ai_reflection)); [discriminate|reflexivity].
    + unfold updated_reflection. rewrite !length_append. cbn. lia.
Qed.

Lemma updated_reflection_keeps_draft_witness :
  show_ai_reflection "Looks sound." = Insight "Looks sound."
  /\ startswith "My draft" (updated_reflection "My draft" "Looks sound.") = true.
Proof.
  split; [reflexivity|].
  apply (updated_reflection_keeps_draft "My draft" "Looks sound."). reflexivity.
Defined.

(** ** Privacy labels, filters and counts *)

Section Lists.

Lemma list_index_nth (l : list string) (x : string) (i : nat) :
  list_index l x = Some i -> nth_error l i = Some x /\ i < List.length l.
Proof.
  revert i; induction l as [|y l IH]; intros i H; [discriminate|].
  cbn [list_index] in H.
  destruct (String.eqb y x) eqn:E.
  - injection H as <-. apply String.eqb_eq in E. subst.
    split; [reflexivity | cbn; lia].
  - destruct (list_index l x) as [j|]; [|discriminate].
    injection H as <-. destruct (IH j eq_refl) as [Hn Hl].
    split; [exact Hn | cbn; lia].
Qed.

Lemma list_index_None (l : list string) (x : string) :
  list_index l x = None <-> ~ In x l.
Proof.
  induction l as [|y l IH]; cbn [list_index In]; [tauto|].
  destruct (String.eqb y x) eqn:E.
  - apply String.eqb_eq in E. split; [discriminate | tauto].
  - apply String.eqb_neq in E.
    destruct (list_index l x) as [j|].
    + split; [discriminate|]. intros Hn. exfalso. apply Hn. right.
      destruct (In_dec string_dec x l) as [Hin|Hin]; [exact Hin|].
      now apply IH in Hin.
    + split; [|reflexivity]. intros _ [Hy|Hin]; [contradiction|].
      now apply (proj1 IH).
Qed.

Lemma layer_eqb_eq (a b : MemoryLayer) : MemoryLayer_eqb a b = true <-> a = b.
Proof.
  destruct a, b; cbn; split; intros H; try reflexivity; discriminate.
Qed.

Lemma has_tag_In (tag : string) (d : Decision.t) :
  has_tag tag d = true <-> In tag (Decision.tags d).
Proof.
  unfold has_tag. rewrite existsb_exists. split.
  - intros (t & Ht & E). apply String.eqb_eq in E. now subst.
  - intros H. exists tag. split; [exact H | apply String.eqb_refl].
Qed.

End Lists.

(** X14: the privacy radios round-trip: the radio of the edit form,
    left untouched, gives back the layer the decision has, so saving an
    edit does not change the layer by itself; in both forms a click on
    the first entry gives PRIVATE and on the second SHAREABLE, and the
    record form, which preselects the first entry, gives PRIVATE when
    left untouched. *)
Theorem edit_form_keeps_layer (decision : Decision.t) :
  edit_memory_layer decision None = Some (Decision.memory_layer decision)
  /\ edit_memory_layer decision (Some 0) = Some PRIVATE
  /\ edit_memory_layer decision (Some 1) = Some SHAREABLE
  /\ option_map layer_of_label (widget_value record_layer_options 0 None)
     = Some PRIVATE
  /\ option_map layer_of_label (widget_value record_layer_options 0 (Some 1))
     = Some SHAREABLE.
Proof.
  unfold edit_memory_layer, widget_value, edit_layer_index.
  destruct (Decision.memory_layer decision); repeat split; reflexivity.
Qed.

(** X15: the timeline shows exactly the decisions that pass every
    active filter: a decision is listed if and only if it is in the base
    list (the search result when a query is typed, all decisions
    otherwise), has the selected layer unless "All" is selected, and
    carries the selected tag unless "All" is selected. *)
Theorem timeline_filters_are_exact
    (search_decisions : string -> list Decision.t)
    (decisions : list Decision.t)
    (search_query selected_layer selected_tag : string) (d : Decision.t) :
  In d (filtered_decisions search_decisions decisions
          search_query selected_layer selected_tag)
  <-> In d (if truthy_str search_query then search_decisions search_query
            else decisions)
      /\ (selected_layer <> "All" ->
          Decision.memory_layer d = layer_of_label selected_layer)
      /\ (selected_tag <> "All" -> In selected_tag (Decision.tags d)).
Proof.
  unfold filtered_decisions.
  set (base := if truthy_str search_query then search_decisions search_query
               else decisions).
  destruct (String.eqb_spec selected_layer "All") as [El|El];
    destruct (String.eqb_spec selected_tag "All") as [Et|Et];
    cbn [negb]; cbv zeta;
    rewrite ?filter_In, ?has_tag_In, ?layer_eqb_eq; tauto.
Qed.


(** X17: the two counts of the privacy distribution split the decisions:
    every decision is counted once, as private or as shareable. *)
Theorem privacy_counts_partition (decisions : list Decision.t) :
  private_count decisions + shareable_count decisions = List.length decisions.
Proof.
  unfold private_count, shareable_count.
  induction decisions as [|d decisions IH]; [reflexivity|].
  cbn [filter]. destruct (Decision.memory_layer d); cbn [MemoryLayer_eqb List.length];
    lia.
Qed.

Lemma timeline_filters_are_exact_witness :
  In Sample2.reviewed
    (filtered_decisions (fun _ => []) [Sample2.archived; Sample2.reviewed]
       "" "🔓 Shareable" "Technical").
Proof.
  apply (timeline_filters_are_exact (fun _ => [])
           [Sample2.archived; Sample2.reviewed] "" "🔓 Shareable" "Technical"
           Sample2.reviewed).
  split; [simpl; tauto|].
  split; [intros _; reflexivity | intros _; simpl; tauto].
Defined.

(** ** The decision page *)

(** X18: the status select box preselects the stored status: when the
    index is found it is in range and points at the current status, and
    a decision without a status (none, or the empty text) gets index 0,
    "Pending Review". *)
Theorem status_index_points_at_status (decision : Decision.t) (i : nat) :
  status_index decision = Some i ->
  i < 4
  /\ nth_error status_options i = Some (current_status decision)
  /\ (truthy (Decision.outcome_status decision) = false -> i = 0).
Proof.
  unfold status_index. intros H.
  destruct (list_index_nth _ _ _ H) as [Hn Hl].
  split; [exact Hl|]. split; [exact Hn|].
  intros Hnone. unfold current_status, py_or in H.
  destruct (Decision.outcome_status decision) as [[|c s]|];
    try discriminate; cbn in H; now injection H.
Qed.

Lemma status_index_points_at_status_witness :
  status_index Sample2.reviewed = Some 2
  /\ nth_error status_options 2 = Some (current_status Sample2.reviewed).
Proof.
  split; [reflexivity|].
  apply (status_index_points_at_status Sample2.reviewed 2). reflexivity.
Defined.

(** X19: the status select box cannot be built for a stored status
    outside its four entries: [list.index] raises exactly when the
    status is a non-empty text that is none of "Pending Review",
    "Completed", "In Progress" and "Reviewing". *)
Theorem status_index_raises_iff_unknown (decision : Decision.t) :
  status_index decision = None
  <-> exists status,
        Decision.outcome_status decision = Some status
        /\ status <> "" /\ ~ In status status_options.
Proof.
  unfold status_index. rewrite list_index_None.
  unfold current_status, py_or.
  destruct (Decision.outcome_status decision) as [[|c s]|].
  - split.
    + intros H. exfalso. apply H. cbn. tauto.
    + intros (status & [= <-] & Hne & _). now destruct Hne.
  - split.
    + intros H. exists (String c s). repeat split; [discriminate | exact H].
    + intros (status & [= <-] & _ & H). exact H.
  - split.
    + intros H. exfalso. apply H. cbn. tauto.
    + intros (status & Hs & _). discriminate.
Qed.

Lemma status_index_raises_iff_unknown_witness :
  status_index Sample2.archived = None.
Proof.
  apply (status_index_raises_iff_unknown Sample2.archived).
  exists "Archived". split; [reflexivity|]. split; [discriminate|].
  cbn. intros [H|[H|[H|[H|[]]]]]; discriminate.
Defined.

(** X20: every severity has a colour of its own: the lookup, made on
    the lower-case severity, never falls back to the default, and two
    constraints get the same colour only when they have the same
    severity. *)
Theorem severity_color_never_default (c c' : Constraint.t) :
  severity_color c <> "⚪"
  /\ In (severity_color c) (map snd severity_colors)
  /\ (severity_color c = severity_color c' ->
      Constraint.severity c = Constraint.severity c').
Proof.
  unfold severity_color.
  destruct (Constraint.severity c), (Constraint.severity c'); cbn;
    repeat split; try discriminate; try tauto; try reflexivity.
Qed.

Lemma severity_color_never_default_witness :
  severity_color Sample.time_high = severity_color Sample2.time_high'
  /\ Constraint.severity Sample.time_high = Constraint.severity Sample2.time_high'.
Proof.
  split; [reflexivity|].
  apply (severity_color_never_default Sample.time_high Sample2.time_high').
  reflexivity.
Defined.

(** ** The record form *)

Section RecordForm.

Lemma truthy_str_nonempty (s : string) : truthy_str s = true <-> s <> "".
Proof.
  destruct s; cbn; split; intros H; try discriminate; try reflexivity.
  now destruct H.
Qed.



End RecordForm.

(** X21: a decision is recorded exactly when the title, the description,
    the goal, the final choice and the reasoning are all non-empty and
    the consent box is ticked; otherwise the one error message is shown
    and nothing is recorded. *)
Theorem submit_requires_fields_and_consent (form : DecisionForm) :
  ((exists decision, submit_decision form = Recorded decision)
   <-> form_title form <> "" /\ form_description form <> ""
       /\ form_goal form <> "" /\ form_final_choice form <> ""
       /\ form_reasoning form <> "" /\ form_consent form = true)
  /\ ((forall decision, submit_decision form <> Recorded decision) ->
      submit_decision form
      = FormError "Please fill all required fields and confirm consent").
Proof.
  unfold submit_decision.
  rewrite <- !truthy_str_nonempty.
  destruct (truthy_str (form_title form)),
    (truthy_str (form_description form)), (truthy_str (form_goal form)),
    (truthy_str (form_final_choice form)), (truthy_str (form_reasoning form)),
    (form_consent form); cbn [negb orb]; split;
    first
      [ solve [ split; [ intros _; repeat split; reflexivity
                       | intros _; eexists; reflexivity ] ]
      | solve [ split; [ intros [dec H]; discriminate H
                       | intros H; decompose [and] H; discriminate ] ]
      | solve [ intros H; exfalso; eapply H; reflexivity ]
      | solve [ intros _; reflexivity ] ].
Qed.

Lemma submit_requires_fields_and_consent_witness :
  exists decision, submit_decision Sample2.form = Recorded decision.
Proof.
  apply (proj1 (submit_requires_fields_and_consent Sample2.form)).
  repeat split; discriminate.
Defined.



(** ** The sidebar navigation *)

(** X23: the sidebar never fails and never moves the user by itself:
    with the radio left untouched the current view stays what it is,
    whether it is one of the five main views or a detail or edit view;
    and on a main view a click on the [i]-th label leads to the [i]-th
    key, so labels, keys and the page mapping are aligned. *)
Theorem sidebar_keeps_view (current_view : string) :
  sidebar_view current_view None = Some current_view
  /\ forall i key,
       In current_view nav_keys ->
       nth_error nav_keys i = Some key ->
       sidebar_view current_view (Some i) = Some key.
Proof.
  unfold sidebar_view, widget_value.
  split.
  - destruct (existsb (String.eqb current_view) nav_keys) eqn:E; [|reflexivity].
    apply existsb_exists in E as (k & Hk & Ek).
    apply String.eqb_eq in Ek. subst k.
    cbn [nav_keys In] in Hk.
    destruct Hk as [<-|[<-|[<-|[<-|[<-|[]]]]]]; reflexivity.
  - intros i key Hin Hkey.
    cbn [nav_keys In] in Hin.
    destruct Hin as [<-|[<-|[<-|[<-|[<-|[]]]]]];
      (destruct i as [|[|[|[|[|i]]]]]; cbn in Hkey;
       [injection Hkey as <-; reflexivity ..
       | destruct i; discriminate]).
Qed.

Lemma sidebar_keeps_view_witness :
  In "timeline" nav_keys
  /\ nth_error nav_keys 3 = Some "ai_insights"
  /\ sidebar_view "timeline" (Some 3) = Some "ai_insights".
Proof.
  split; [simpl; tauto|].
  split; [reflexivity|].
  apply (proj2 (sidebar_keeps_view "timeline") 3 "ai_insights");
    [simpl; tauto | reflexivity].
Defined.
